(** * FastEval: evaluation/models/models.py and evaluation/models/dolphin.py

    A shallow embedding of the model-selection module of the evaluation
    harness: the config cache behind a global lock, the choice of an
    inference backend, the wrapper factory, the reply driver and the
    backend switcher.

    Python state is threaded explicitly through a [World]; every call that
    leaves the module (the model registry, [print], a wrapper's constructor,
    a model's [reply], a backend's [unload_model], the thread-pool helper) is
    recorded in the world's [trace], in call order, with its result. *)

From stdpp Require Import gmap strings list fin_maps.

Open Scope string_scope.
Open Scope nat_scope.
Open Scope list_scope.

(** ** Python values *)

(** The values the module passes along without inspecting them: [None],
    strings, integers and references to objects it does not look into. *)
Inductive PyVal :=
| PyNone
| PyStr (s : string)
| PyInt (z : Z)
| PyObj (oid : nat).

#[global] Instance PyVal_eq_dec : EqDecision PyVal.
Proof. solve_decision. Defined.

(** [name == other] for a [str] on the left: true only for an equal [str]. *)
Definition str_eq_val (name : string) (other : PyVal) : bool :=
  match other with
  | PyStr s => bool_decide (name = s)
  | _ => false
  end.

(** Exceptions: the class and the [args] tuple (the message, when there is
    one). *)
Inductive ExcClass :=
| Exception
| RuntimeError
| TypeError
| OtherError (name : string).

Record PyExc := mkExc { exc_class : ExcClass; exc_args : list string }.

(** The double quote and the newline, as one-character strings. *)
Definition dquote : string := String (Ascii.ascii_of_nat 34) EmptyString.
Definition newline : string := String (Ascii.ascii_of_nat 10) EmptyString.

(** [needle in haystack] on [str]: the substring test. *)
Fixpoint str_contains (needle haystack : string) : bool :=
  if String.prefix needle haystack then true
  else match haystack with
       | EmptyString => false
       | String _ rest => str_contains needle rest
       end.

(** [x in xs] for a list of strings. *)
Definition list_contains (x : string) (xs : list string) : bool :=
  bool_decide (x ∈ xs).

(** ** Conversations, configs, classes *)

(** A conversation is dispatched on its shape: a [list], a [dict] of named
    arguments, or anything else. *)
Inductive Conversation :=
| ConvList (turns : list PyVal)
| ConvDict (bundle : gmap string PyVal)
| ConvOther (v : PyVal).

(** What the registry answers for a model name. *)
Record ConfigData := mkConfigData {
  cd_model_type : string;
  cd_torch_dtype : string
}.

(** A config object: the registry's answer together with the identity of
    the object that [from_pretrained] created for it. *)
Record ModelConfig := mkModelConfig {
  config_oid : nat;
  model_type : string;
  torch_dtype : string
}.

(** The wrapper classes of [create_model]'s table. *)
Inductive ModelClass :=
| Debug | OpenAI | Fastchat | OpenAssistant | Guanaco | FalconInstruct
| AlpacaWithoutPrefix | AlpacaWithPrefix | ChatML | Starchat | Llama2Chat
| StableBeluga | Dolphin | OpenchatLlama2V1 | WizardLM.

#[global] Instance ModelClass_eq_dec : EqDecision ModelClass.
Proof. solve_decision. Defined.

(** The modules whose [unload_model] the switcher calls. *)
Inductive BackendModule :=
| HfTransformersModule   (* evaluation.models.huggingface_backends.hf_transformers *)
| VllmBackendModule      (* evaluation.models.huggingface_backends.vllm_backend *)
| TgiModule              (* evaluation.models.huggingface_backends.tgi *)
| FastchatModule.        (* evaluation.models.fastchat *)

#[global] Instance BackendModule_eq_dec : EqDecision BackendModule.
Proof. solve_decision. Defined.

(** An instance built by [create_model]. *)
Record Wrapper := mkWrapper { wrapper_class : ModelClass; wrapper_oid : nat }.

(** The [model] argument of [compute_model_replies]: an object with a
    [reply] method and a [num_threads] attribute. *)
Record Model := mkModel { model_oid : nat; num_threads : nat }.

(** ** Events and the world *)

Inductive Event :=
| EvFromPretrained (model_name : string) (res : PyExc + ModelConfig)
| EvPrint (text : string)
| EvInit (cls : ModelClass) (self : nat) (model_name : string)
         (kwargs : gmap string PyVal) (res : option PyExc)
| EvHuggingfaceInit (self : nat) (model_path : string)
         (kwargs : gmap string PyVal) (res : option PyExc)
| EvReply (model : nat) (args : list Conversation)
         (kwargs : gmap string PyVal) (res : PyExc + PyVal)
| EvUnload (module : BackendModule) (res : option PyExc)
| EvThreadPool (num_threads : nat) (items : list Conversation)
         (progress_bar_description : option string) (use_stop_event : bool).

(** What lies outside the two source files: each answer may depend on all
    that happened before. [None] in an [option PyExc] is a normal return. *)
Record Externals := mkExternals {
  from_pretrained_result : list Event → string → PyExc + ConfigData;
  wrapper_init_result :
    list Event → ModelClass → string → gmap string PyVal → option PyExc;
  huggingface_init_result :
    list Event → string → gmap string PyVal → option PyExc;
  reply_result :
    list Event → nat → list Conversation → gmap string PyVal → PyExc + PyVal;
  unload_result : list Event → BackendModule → option PyExc
}.

Record World := mkWorld {
  fetched_model_configs : gmap string ModelConfig;
  fetched_model_configs_lock : bool;      (* true: the lock is held *)
  filesystem : gset string;               (* the paths that exist *)
  exc_info : option PyExc;                (* the exception being handled *)
  next_oid : nat;                         (* identity of the next object *)
  trace : list Event
}.

Definition set_configs (c : gmap string ModelConfig) (w : World) : World :=
  mkWorld c (fetched_model_configs_lock w) (filesystem w) (exc_info w)
          (next_oid w) (trace w).

Definition set_lock (b : bool) (w : World) : World :=
  mkWorld (fetched_model_configs w) b (filesystem w) (exc_info w)
          (next_oid w) (trace w).

Definition set_next_oid (n : nat) (w : World) : World :=
  mkWorld (fetched_model_configs w) (fetched_model_configs_lock w)
          (filesystem w) (exc_info w) n (trace w).

Definition log_event (ev : Event) (w : World) : World :=
  mkWorld (fetched_model_configs w) (fetched_model_configs_lock w)
          (filesystem w) (exc_info w) (next_oid w) (trace w ++ [ev]).

(** The world when the module has just been imported. *)
Definition initial_world (fs : gset string) : World :=
  mkWorld ∅ false fs None 0 [].

(** ** The monad of module code *)

(** A call returns, raises, or never comes back (it waits for a lock). *)
Inductive Outcome (A : Type) :=
| Returned (a : A)
| Raised (e : PyExc)
| Blocked.
Arguments Returned {A} a.
Arguments Raised {A} e.
Arguments Blocked {A}.

Definition M (A : Type) : Type := World → Outcome A * World.

#[global] Instance M_ret : MRet M := λ A a w, (Returned a, w).

#[global] Instance M_bind : MBind M := λ A B k m w,
  match m w with
  | (Returned a, w') => k a w'
  | (Raised e, w') => (Raised e, w')
  | (Blocked, w') => (Blocked, w')
  end.

Definition raise {A} (e : PyExc) : M A := λ w, (Raised e, w).

Definition get_world : M World := λ w, (Returned w, w).

Definition modify (f : World → World) : M unit := λ w, (Returned tt, f w).

(** A fresh object identity. *)
Definition fresh_oid : M nat :=
  λ w, (Returned (next_oid w), set_next_oid (S (next_oid w)) w).

(** [for x in xs: body(x)] *)
Fixpoint for_each {A} (xs : list A) (body : A → M unit) : M unit :=
  match xs with
  | [] => mret tt
  | x :: rest => _ ← body x; for_each rest body
  end.

(** ** threading.Lock *)

(** [acquire()] on a held lock waits until the lock is released. The
    worlds here are those of one thread of control: no other thread is
    there to release, so the wait does not end. *)
Definition lock_acquire : M unit := λ w,
  if fetched_model_configs_lock w then (Blocked, w)
  else (Returned tt, set_lock true w).

Definition lock_release : M unit := λ w,
  if fetched_model_configs_lock w then (Returned tt, set_lock false w)
  else (Raised (mkExc RuntimeError ["release unlocked lock"]), w).

Section Module.
Context (X : Externals).

(** ** fetch_model_config *)

(** [transformers.AutoConfig.from_pretrained(model_name, trust_remote_code=True)]:
    either raises, or creates a new config object. *)
Definition AutoConfig_from_pretrained (model_name : string) : M ModelConfig :=
  λ w,
  match from_pretrained_result X (trace w) model_name with
  | inl e => (Raised e, log_event (EvFromPretrained model_name (inl e)) w)
  | inr d =>
      let c := mkModelConfig (next_oid w) (cd_model_type d) (cd_torch_dtype d) in
      (Returned c,
       log_event (EvFromPretrained model_name (inr c))
                 (set_next_oid (S (next_oid w)) w))
  end.

Definition fetch_model_config (model_name : string) : M ModelConfig :=
  _ ← lock_acquire;
  w ← get_world;
  match fetched_model_configs w !! model_name with
  | Some model_config =>
      _ ← lock_release;
      mret model_config
  | None =>
      model_config ← AutoConfig_from_pretrained model_name;
      _ ← modify (λ w, set_configs
                         (<[model_name := model_config]> (fetched_model_configs w)) w);
      _ ← lock_release;
      mret model_config
  end.

Definition get_dtype (model_name : string) : M string :=
  c ← fetch_model_config model_name; mret (torch_dtype c).

(** ** get_supported_inference_backends *)

Definition generally_supported_model_types : list string :=
  [ "llama";            (* LLaMA & LLaMA-2 *)
    "gpt_neox";         (* EleutherAI Pythia models *)
    "gpt_bigcode";      (* Starcoder *)
    "mpt";              (* MPT models from MosaicML *)
    "RefinedWeb"; "RefinedWebModel"; "falcon" ].

Definition get_supported_inference_backends (model_name : string)
  : M (list string) :=
  if str_contains "starchat" model_name then
    (* vLLM currently does not support starchat. *)
    mret ["tgi"; "hf_transformers"]
  else
    model_config ← fetch_model_config model_name;
    let model_type := model_type model_config in
    if list_contains model_type generally_supported_model_types then
      mret ["vllm"; "tgi"; "hf_transformers"]
    else
      mret [].

(** ** get_inference_backend *)

(** [os.path.exists("text-generation-inference")] *)
Definition is_tgi_installed : M bool :=
  λ w, (Returned (bool_decide ("text-generation-inference" ∈ filesystem w)), w).

Definition print (text : string) : M unit := modify (log_event (EvPrint text)).

Definition tgi_warning (model_path : string) : string :=
  "WARNING: The model " +:+ dquote +:+ model_path +:+ dquote +:+
  " can be greatly accelerated by text-generation-inference, but it is not installed.".

Definition no_backend_error (model_path : string) : PyExc :=
  mkExc Exception
    ["No inference backend supported for model " +:+ dquote +:+ model_path].

(** The body of [get_inference_backend] below its first line. The last two
    statements are reached both when "tgi" is not supported and after the
    warning. *)
Definition select_inference_backend (model_path : string)
    (supported_backends : list string) : M string :=
  let last_resort : M string :=
    if list_contains "hf_transformers" supported_backends then
      mret "hf_transformers"
    else
      raise (no_backend_error model_path) in
  if list_contains "vllm" supported_backends then
    mret "vllm"
  else if list_contains "tgi" supported_backends then
    installed ← is_tgi_installed;
    if installed : bool then
      mret "tgi"
    else
      _ ← print (tgi_warning model_path);
      last_resort
  else
    last_resort.

Definition get_inference_backend (model_path : string) : M string :=
  supported_backends ← get_supported_inference_backends model_path;
  select_inference_backend model_path supported_backends.

(** ** Calls with keyword arguments *)

(** A call of [f] with two dictionaries unpacked as keywords: a key given
    twice is a [TypeError], raised before [f] runs. The message, which
    also names the callee and the key, is kept to its fixed part. *)
Definition multiple_values_error : PyExc :=
  mkExc TypeError ["got multiple values for keyword argument"].

Definition merge_kwargs (a b : gmap string PyVal) : option (gmap string PyVal) :=
  if decide (a ##ₘ b) then Some (a ∪ b) else None.

(** ** The wrapper classes and create_model *)

(** [__init__] of a wrapper class that is not in these files. *)
Definition external_init (cls : ModelClass) (self : nat) (model_name : string)
    (kwargs : gmap string PyVal) : M unit :=
  λ w,
  let r := wrapper_init_result X (trace w) cls model_name kwargs in
  let w' := log_event (EvInit cls self model_name kwargs r) w in
  match r with
  | None => (Returned tt, w')
  | Some e => (Raised e, w')
  end.

(** [Huggingface.__init__], the base class of [Dolphin]. *)
Definition Huggingface_init (self : nat) (model_path : string)
    (kwargs : gmap string PyVal) : M unit :=
  λ w,
  let r := huggingface_init_result X (trace w) model_path kwargs in
  let w' := log_event (EvHuggingfaceInit self model_path kwargs r) w in
  match r with
  | None => (Returned tt, w')
  | Some e => (Raised e, w')
  end.

Definition dolphin_default_system_message : string :=
  "You are a helpful assistant chatbot that answers the users questions.".

(** [Dolphin.__init__(self, model_path, *, default_system_message=None, **kwargs)],
    called with the keywords [kw]. *)
Definition Dolphin_init (self : nat) (model_path : string)
    (kw : gmap string PyVal) : M unit :=
  if bool_decide (is_Some (kw !! "self") ∨ is_Some (kw !! "model_path")) then
    raise multiple_values_error
  else
    let default_system_message := default PyNone (kw !! "default_system_message") in
    let kwargs := delete "default_system_message" kw in
    let default_system_message :=
      if decide (default_system_message = PyNone)
      then PyStr dolphin_default_system_message
      else default_system_message in
    match merge_kwargs
            (<["user" := PyStr "USER: "]>
             (<["assistant" := PyStr "ASSISTANT: "]>
              (<["system" := PyStr "SYSTEM: "]>
               (<["default_system" := default_system_message]>
                (<["end" := PyStr newline]> ∅)))))
            kwargs with
    | None => raise multiple_values_error
    | Some kw' => Huggingface_init self model_path kw'
    end.

Definition wrapper_init (cls : ModelClass) (self : nat) (model_name : string)
    (kwargs : gmap string PyVal) : M unit :=
  match cls with
  | Dolphin => Dolphin_init self model_name kwargs
  | _ => external_init cls self model_name kwargs
  end.

Definition model_class_table : list (string * ModelClass) :=
  [ ("debug", Debug);
    ("openai", OpenAI);
    ("fastchat", Fastchat);
    ("open-assistant", OpenAssistant);
    ("guanaco", Guanaco);
    ("falcon-instruct", FalconInstruct);
    ("alpaca-without-prefix", AlpacaWithoutPrefix);
    ("alpaca-with-prefix", AlpacaWithPrefix);
    ("chatml", ChatML);
    ("starchat", Starchat);
    ("llama2-chat", Llama2Chat);
    ("stable-beluga", StableBeluga);
    ("dolphin", Dolphin);
    ("openchat-llama2-v1", OpenchatLlama2V1);
    ("wizard-lm", WizardLM) ].

Definition model_classes : gmap string ModelClass :=
  list_to_map model_class_table.

Definition unknown_model_type_error (model_type : string) : PyExc :=
  mkExc Exception ["Unknown model type " +:+ dquote +:+ model_type +:+ dquote].

(** The class is called with [model_name] and with the entries of
    [model_args] and of [kwargs] as keywords: the keywords are merged, an
    object is created and its [__init__] runs. *)
Definition create_model (model_type model_name : string)
    (model_args kwargs : gmap string PyVal) : M Wrapper :=
  match model_classes !! model_type with
  | None => raise (unknown_model_type_error model_type)
  | Some model_class =>
      match merge_kwargs model_args kwargs with
      | None => raise multiple_values_error
      | Some kw =>
          self ← fresh_oid;
          _ ← wrapper_init model_class self model_name kw;
          mret (mkWrapper model_class self)
      end
  end.

(** ** compute_model_replies *)

(** A call of [model.reply] with the given arguments and keywords. *)
Definition model_reply (model : Model) (args : list Conversation)
    (kwargs : gmap string PyVal) : M PyVal :=
  λ w,
  let r := reply_result X (trace w) (model_oid model) args kwargs in
  let w' := log_event (EvReply (model_oid model) args kwargs r) w in
  match r with
  | inl e => (Raised e, w')
  | inr v => (Returned v, w')
  end.

(** A [raise] with no expression: the exception being handled is raised
    again; when there is none, Python raises a [RuntimeError]. *)
Definition bare_raise {A} : M A :=
  λ w,
  match exc_info w with
  | Some e => (Raised e, w)
  | None => (Raised (mkExc RuntimeError ["No active exception to reraise"]), w)
  end.

Definition compute_reply (model : Model) (conversation : Conversation)
    (stop_event : PyVal) : M PyVal :=
  match conversation with
  | ConvList _ =>
      model_reply model [conversation] {["stop_event" := stop_event]}
  | ConvDict bundle =>
      match merge_kwargs bundle {["stop_event" := stop_event]} with
      | None => raise multiple_values_error
      | Some kw => model_reply model [] kw
      end
  | ConvOther _ => bare_raise
  end.

(** [[f(x) for x in xs]], left to right, stopping at the first failure. *)
Fixpoint map_each {A B} (xs : list A) (f : A → M B) : M (list B) :=
  match xs with
  | [] => mret []
  | x :: rest => y ← f x; ys ← map_each rest f; mret (y :: ys)
  end.

(** Modelled from the spec: [evaluation.utils.process_with_thread_pool] is not
    among the source files. The spec has it hand every item, together with
    one shared stop signal, to [process_fn], give the results back in the
    order of the items, and surface an item's failure. It is called here
    with [use_stop_event=True] only, and that is the mode modelled; the
    worker threads are run one after the other. *)
Definition process_with_thread_pool (num_threads : nat)
    (items : list Conversation)
    (process_fn : Conversation → PyVal → M PyVal)
    (progress_bar_description : option string) : M (list PyVal) :=
  _ ← modify (log_event
                (EvThreadPool num_threads items progress_bar_description true));
  stop_event ← fresh_oid;
  map_each items (λ item, process_fn item (PyObj stop_event)).

Definition compute_model_replies (model : Model)
    (conversations : list Conversation)
    (progress_bar_description : option string) : M (list PyVal) :=
  if bool_decide (length conversations = 0) then
    mret []
  else
    process_with_thread_pool (num_threads model) conversations
      (compute_reply model) progress_bar_description.

(** ** switch_inference_backend and unload_model *)

(** [unload_model()] of a backend module. *)
Definition backend_unload_model (module : BackendModule) : M unit :=
  λ w,
  let r := unload_result X (trace w) module in
  let w' := log_event (EvUnload module r) w in
  match r with
  | None => (Returned tt, w')
  | Some e => (Raised e, w')
  end.

Definition unload_backend_fns : list (string * BackendModule) :=
  [ ("hf_transformers", HfTransformersModule);
    ("vllm", VllmBackendModule);
    ("tgi", TgiModule);
    ("fastchat", FastchatModule) ].

Definition switch_inference_backend (new_inference_backend : PyVal) : M unit :=
  for_each unload_backend_fns
    (λ '(inference_backend_name, unload_backend_fn),
       if str_eq_val inference_backend_name new_inference_backend then
         mret tt                                     (* continue *)
       else
         backend_unload_model unload_backend_fn).

Definition unload_model : M unit := switch_inference_backend PyNone.

End Module.

(** ** Observations on worlds and traces *)

Definition is_fetch_of (name : string) (ev : Event) : bool :=
  match ev with
  | EvFromPretrained n _ => bool_decide (n = name)
  | _ => false
  end.

(** How often the registry was asked for [name]. *)
Definition underlying_fetches (name : string) (tr : list Event) : nat :=
  length (List.filter (is_fetch_of name) tr).

(** How many entries of the cache have the key [name]. *)
Definition entries_for (name : string) (m : gmap string ModelConfig) : nat :=
  length (List.filter (λ kv : string * ModelConfig, bool_decide (kv.1 = name))
                      (map_to_list m)).

Definition is_thread_pool_call (ev : Event) : bool :=
  match ev with
  | EvThreadPool _ _ _ _ => true
  | _ => false
  end.

Definition thread_pool_calls (tr : list Event) : nat :=
  length (List.filter is_thread_pool_call tr).

(** The modules whose [unload_model] was called, in call order. *)
Definition unloaded_modules (tr : list Event) : list BackendModule :=
  omap (λ ev, match ev with EvUnload m _ => Some m | _ => None end) tr.

(** The reply call that a conversation of a given shape is answered by,
    with the shared stop signal [stop_event] and the reply [r]: the
    conversation as the one positional argument for a list, its entries as
    keywords for a dict. *)
Inductive dispatched (model : Model) (stop_event : PyVal)
  : Conversation → PyVal → Event → Prop :=
| dispatched_list (turns : list PyVal) (r : PyVal) :
    dispatched model stop_event (ConvList turns) r
      (EvReply (model_oid model) [ConvList turns]
               {["stop_event" := stop_event]} (inr r))
| dispatched_dict (bundle : gmap string PyVal) (r : PyVal) :
    dispatched model stop_event (ConvDict bundle) r
      (EvReply (model_oid model) []
               (<["stop_event" := stop_event]> bundle) (inr r)).

Section Runs.
Context (X : Externals).

(** Calls of [fetch_model_config] one after the other, whatever each one's
    outcome. *)
Fixpoint fetch_all (names : list string) (w : World) : World :=
  match names with
  | [] => w
  | name :: rest => fetch_all rest (fetch_model_config X name w).2
  end.

(** A call of any function of the module. *)
Inductive ApiCall :=
| CallFetchModelConfig (model_name : string)
| CallGetDtype (model_name : string)
| CallGetSupportedInferenceBackends (model_name : string)
| CallGetInferenceBackend (model_path : string)
| CallCreateModel (model_type model_name : string)
                  (model_args kwargs : gmap string PyVal)
| CallComputeModelReplies (model : Model) (conversations : list Conversation)
                          (progress_bar_description : option string)
| CallSwitchInferenceBackend (new_inference_backend : PyVal)
| CallUnloadModel.

(** The world a call leaves behind, however it ends. *)
Definition run_call (c : ApiCall) (w : World) : World :=
  match c with
  | CallFetchModelConfig n => (fetch_model_config X n w).2
  | CallGetDtype n => (get_dtype X n w).2
  | CallGetSupportedInferenceBackends n =>
      (get_supported_inference_backends X n w).2
  | CallGetInferenceBackend p => (get_inference_backend X p w).2
  | CallCreateModel t n a k => (create_model X t n a k w).2
  | CallComputeModelReplies m cs d => (compute_model_replies X m cs d w).2
  | CallSwitchInferenceBackend t => (switch_inference_backend X t w).2
  | CallUnloadModel => (unload_model X w).2
  end.

Fixpoint run_calls (cs : list ApiCall) (w : World) : World :=
  match cs with
  | [] => w
  | c :: rest => run_calls rest (run_call c w)
  end.

End Runs.

(** A computation that, started with the lock held, leaves it held and the
    cache alone. *)
Definition keeps_lock {A} (m : M A) : Prop :=
  ∀ w, fetched_model_configs_lock w = true →
       fetched_model_configs_lock (m w).2 = true
       ∧ fetched_model_configs (m w).2 = fetched_model_configs w.

(** What links the cache, the lock and the history of registry calls. *)
Definition fetch_inv (w : World) : Prop :=
  ∀ n,
    match fetched_model_configs w !! n with
    | Some _ => underlying_fetches n (trace w) = 1
    | None =>
        underlying_fetches n (trace w) ≤ 1
        ∧ (fetched_model_configs_lock w = false →
           underlying_fetches n (trace w) = 0)
    end.

(** Every cached config is an object created before now: the object that
    a new fetch creates is none of them. *)
Definition cached_objects_known (w : World) : Prop :=
  ∀ n c, fetched_model_configs w !! n = Some c → config_oid c < next_oid w.

(** ** A sample environment

    A registry that knows every name but "missing", and answers "llama" for
    the names that contain it; constructors, replies and unload functions
    that return. *)

Definition sample_externals : Externals :=
  mkExternals
    (λ _ name,
       if bool_decide (name = "missing") then
         inl (mkExc (OtherError "OSError") ["missing is not a valid model identifier"])
       else
         inr (mkConfigData (if str_contains "llama" name then "llama" else "bert")
                           "float16"))
    (λ _ _ _ _, None)
    (λ _ _ _, None)
    (λ tr _ _ _, inr (PyInt (Z.of_nat (length tr))))
    (λ _ _, None).

Definition sample_model : Model := mkModel 7 4.

(** The world at start, without and with the marker directory. *)
Definition world0 : World := initial_world ∅.
Definition world_tgi : World := initial_world {["text-generation-inference"]}.

(** ** Invariants of the module's calls *)

(** A computation that keeps [I], however it ends. *)
Definition preserves {A} (I : World → Prop) (m : M A) : Prop :=
  ∀ w, I w → I (m w).2.

(** The events that are no call of the registry. *)
Definition quiet_event (ev : Event) : bool :=
  match ev with
  | EvFromPretrained _ _ => false
  | _ => true
  end.

(** Configs cached under different names are different objects. *)
Definition cached_objects_distinct (w : World) : Prop :=
  ∀ n1 n2 c1 c2,
    n1 ≠ n2 →
    fetched_model_configs w !! n1 = Some c1 →
    fetched_model_configs w !! n2 = Some c2 →
    config_oid c1 ≠ config_oid c2.

(** The keywords that [Dolphin.__init__] binds itself or passes on under a
    fixed value. *)
Definition dolphin_positional : list string := ["self"; "model_path"].
Definition dolphin_fixed_keywords : list string :=
  ["user"; "assistant"; "system"; "default_system"; "end"].

(** The world after a fetch of "missing" has failed: the lock is held. *)
Definition world_stuck : World :=
  (fetch_model_config sample_externals "missing" world0).2.

(** An environment in which unloading vLLM fails. *)
Definition vllm_unload_fails : Externals :=
  mkExternals
    (from_pretrained_result sample_externals)
    (wrapper_init_result sample_externals)
    (huggingface_init_result sample_externals)
    (reply_result sample_externals)
    (λ _ m, match m with
            | VllmBackendModule =>
                Some (mkExc RuntimeError ["CUDA error: invalid device ordinal"])
            | _ => None
            end).

(** ** Strings *)

Lemma prefix_spec (p s : string) :
  String.prefix p s = true ↔ ∃ post, s = p +:+ post.
Proof.
  revert s. induction p as [|a p IH]; intros [|b s]; simpl.
  - split; [intros _; by exists EmptyString | done].
  - split; [intros _; by exists (String b s) | done].
  - split; [done | intros [post Hpost]; discriminate].
  - destruct (Ascii.ascii_dec a b) as [->|Hne].
    + rewrite IH. split; intros [post Hpost]; exists post.
      * by rewrite Hpost.
      * by injection Hpost.
    + split; [done | intros [post Hpost]; injection Hpost; congruence].
Qed.

Lemma str_contains_unfold (needle s : string) :
  str_contains needle s =
    if String.prefix needle s then true
    else match s with
         | EmptyString => false
         | String _ rest => str_contains needle rest
         end.
Proof. by destruct s. Qed.

(** [str_contains] is the substring test: the needle occurs somewhere. *)
Lemma str_contains_spec (needle s : string) :
  str_contains needle s = true ↔ ∃ pre post, s = pre +:+ needle +:+ post.
Proof.
  induction s as [|a s IH]; rewrite str_contains_unfold;
    destruct (String.prefix needle _) eqn:Hp.
  - apply prefix_spec in Hp as [post Hpost].
    split; [intros _; exists EmptyString, post; exact Hpost | done].
  - split; [done|]. intros [pre [post Heq]].
    assert (String.prefix needle EmptyString = true) as Hp'; [|congruence].
    apply prefix_spec. exists post.
    destruct pre; [exact Heq | discriminate].
  - apply prefix_spec in Hp as [post Hpost].
    split; [intros _; exists EmptyString, post; exact Hpost | done].
  - rewrite IH. split.
    + intros [pre [post ->]]. by exists (String a pre), post.
    + intros [pre [post Heq]]. destruct pre as [|b pre].
      * assert (String.prefix needle (String a s) = true) as Hp'; [|congruence].
        apply prefix_spec. exists post. exact Heq.
      * injection Heq as _ ->. by exists pre, post.
Qed.

Lemma list_contains_spec (x : string) (xs : list string) :
  list_contains x xs = true ↔ In x xs.
Proof.
  unfold list_contains. rewrite bool_decide_eq_true. apply list_elem_of_In.
Qed.

Lemma list_contains_false (x : string) (xs : list string) :
  list_contains x xs = false ↔ ¬ In x xs.
Proof.
  unfold list_contains. rewrite bool_decide_eq_false.
  by rewrite list_elem_of_In.
Qed.

(** ** The world under the lock *)

Ltac unfold_M :=
  unfold mbind, M_bind, mret, M_ret, raise, modify, get_world in *.

Section Fetch.
Context (X : Externals).

(** A held lock: the call waits, and nothing changes. *)
Lemma fetch_locked (name : string) (w : World) :
  fetched_model_configs_lock w = true →
  fetch_model_config X name w = (Blocked, w).
Proof.
  intros Hl. unfold fetch_model_config, lock_acquire. unfold_M.
  by rewrite Hl.
Qed.

(** A cached name: the cached object comes back, nothing changes. *)
Lemma fetch_cached (name : string) (w : World) (c : ModelConfig) :
  fetched_model_configs_lock w = false →
  fetched_model_configs w !! name = Some c →
  fetch_model_config X name w = (Returned c, w).
Proof.
  intros Hl Hc. unfold fetch_model_config, lock_acquire, lock_release.
  unfold_M. rewrite Hl. simpl. rewrite Hc. simpl.
  f_equal. destruct w; simpl in *; by subst.
Qed.

(** An uncached name the registry knows. *)
Lemma fetch_uncached (name : string) (w : World) (d : ConfigData) :
  fetched_model_configs_lock w = false →
  fetched_model_configs w !! name = None →
  from_pretrained_result X (trace w) name = inr d →
  let c := mkModelConfig (next_oid w) (cd_model_type d) (cd_torch_dtype d) in
  fetch_model_config X name w =
    (Returned c,
     mkWorld (<[name := c]> (fetched_model_configs w)) false (filesystem w)
             (exc_info w) (S (next_oid w))
             (trace w ++ [EvFromPretrained name (inr c)])).
Proof.
  intros Hl Hc Hd c.
  unfold fetch_model_config, lock_acquire, lock_release, AutoConfig_from_pretrained.
  unfold_M. rewrite Hl. simpl. rewrite Hc. simpl. rewrite Hd. done.
Qed.

(** An uncached name for which the registry raises: the release is never
    reached. *)
Lemma fetch_uncached_raises (name : string) (w : World) (e : PyExc) :
  fetched_model_configs_lock w = false →
  fetched_model_configs w !! name = None →
  from_pretrained_result X (trace w) name = inl e →
  fetch_model_config X name w =
    (Raised e,
     mkWorld (fetched_model_configs w) true (filesystem w) (exc_info w)
             (next_oid w) (trace w ++ [EvFromPretrained name (inl e)])).
Proof.
  intros Hl Hc He.
  unfold fetch_model_config, lock_acquire, AutoConfig_from_pretrained.
  unfold_M. rewrite Hl. simpl. rewrite Hc. simpl. rewrite He. done.
Qed.

Lemma fetch_all_locked (names : list string) (w : World) :
  fetched_model_configs_lock w = true → fetch_all X names w = w.
Proof.
  induction names as [|n names IH]; intros Hl; simpl; [done|].
  rewrite (fetch_locked n w Hl). simpl. by apply IH.
Qed.

End Fetch.

(** ** Nothing but [fetch_model_config] touches the lock *)

Lemma keeps_lock_ret {A} (a : A) : keeps_lock (mret a).
Proof. by intros w Hl. Qed.

Lemma keeps_lock_raise {A} (e : PyExc) : keeps_lock (raise e : M A).
Proof. by intros w Hl. Qed.

Lemma keeps_lock_bind {A B} (m : M A) (k : A → M B) :
  keeps_lock m → (∀ a, keeps_lock (k a)) → keeps_lock (m ≫= k).
Proof.
  intros Hm Hk w Hl. specialize (Hm w Hl). unfold mbind, M_bind.
  destruct (m w) as [[a|e|] w']; simpl in *; [|done..].
  destruct Hm as [Hl' Hc']. destruct (Hk a w' Hl') as [Hl'' Hc''].
  split; [done | congruence].
Qed.

Lemma keeps_lock_log (ev : Event) : keeps_lock (modify (log_event ev)).
Proof. by intros w Hl. Qed.

Lemma keeps_lock_fresh_oid : keeps_lock fresh_oid.
Proof. by intros w Hl. Qed.

Lemma keeps_lock_is_tgi_installed : keeps_lock is_tgi_installed.
Proof. by intros w Hl. Qed.

Lemma keeps_lock_bare_raise {A} : keeps_lock (bare_raise : M A).
Proof. intros w Hl. unfold bare_raise. by destruct (exc_info w). Qed.

Lemma keeps_lock_for_each {A} (xs : list A) (body : A → M unit) :
  (∀ x, keeps_lock (body x)) → keeps_lock (for_each xs body).
Proof.
  intros Hbody. induction xs as [|x xs IH]; simpl.
  - apply keeps_lock_ret.
  - apply keeps_lock_bind; [apply Hbody | by intros _].
Qed.

Lemma keeps_lock_map_each {A B} (xs : list A) (f : A → M B) :
  (∀ x, keeps_lock (f x)) → keeps_lock (map_each xs f).
Proof.
  intros Hf. induction xs as [|x xs IH]; simpl.
  - apply keeps_lock_ret.
  - apply keeps_lock_bind; [apply Hf | intros y].
    apply keeps_lock_bind; [apply IH | intros ys]. apply keeps_lock_ret.
Qed.

Section Lock.
Context (X : Externals).

Lemma keeps_lock_fetch_model_config (name : string) :
  keeps_lock (fetch_model_config X name).
Proof. intros w Hl. by rewrite fetch_locked. Qed.

Lemma keeps_lock_external_init cls self name kw :
  keeps_lock (external_init X cls self name kw).
Proof.
  intros w Hl. unfold external_init. by destruct (wrapper_init_result _ _ _ _ _).
Qed.

Lemma keeps_lock_Huggingface_init self path kw :
  keeps_lock (Huggingface_init X self path kw).
Proof.
  intros w Hl. unfold Huggingface_init. by destruct (huggingface_init_result _ _ _ _).
Qed.

Lemma keeps_lock_model_reply model args kw :
  keeps_lock (model_reply X model args kw).
Proof.
  intros w Hl. unfold model_reply. by destruct (reply_result _ _ _ _ _).
Qed.

Lemma keeps_lock_backend_unload_model module :
  keeps_lock (backend_unload_model X module).
Proof.
  intros w Hl. unfold backend_unload_model. by destruct (unload_result _ _ _).
Qed.

Create HintDb keeps_lock.

#[local] Hint Resolve keeps_lock_ret keeps_lock_raise keeps_lock_log
  keeps_lock_fresh_oid keeps_lock_is_tgi_installed keeps_lock_bare_raise
  keeps_lock_fetch_model_config keeps_lock_external_init
  keeps_lock_Huggingface_init keeps_lock_model_reply
  keeps_lock_backend_unload_model : keeps_lock.

Ltac keeps_lock_step :=
  match goal with
  | |- keeps_lock (_ ≫= _) => apply keeps_lock_bind; [|intros ?]
  | |- keeps_lock (for_each _ _) => apply keeps_lock_for_each; intros ?
  | |- keeps_lock (map_each _ _) => apply keeps_lock_map_each; intros ?
  | |- keeps_lock (if ?b then _ else _) => destruct b
  | |- keeps_lock (match ?x with _ => _ end) => destruct x
  | |- keeps_lock (let '(_, _) := ?x in _) => destruct x
  | |- keeps_lock _ => solve [auto with keeps_lock]
  end.

Lemma keeps_lock_get_dtype name : keeps_lock (get_dtype X name).
Proof. unfold get_dtype. repeat keeps_lock_step. Qed.

Lemma keeps_lock_get_supported name :
  keeps_lock (get_supported_inference_backends X name).
Proof. unfold get_supported_inference_backends. repeat keeps_lock_step. Qed.

Lemma keeps_lock_get_inference_backend path :
  keeps_lock (get_inference_backend X path).
Proof.
  unfold get_inference_backend, select_inference_backend, print.
  apply keeps_lock_bind; [apply keeps_lock_get_supported | intros sup].
  repeat keeps_lock_step.
Qed.

Lemma keeps_lock_create_model t name args kwargs :
  keeps_lock (create_model X t name args kwargs).
Proof.
  unfold create_model, wrapper_init, Dolphin_init.
  repeat keeps_lock_step.
Qed.

Lemma keeps_lock_compute_model_replies model convs descr :
  keeps_lock (compute_model_replies X model convs descr).
Proof.
  unfold compute_model_replies, process_with_thread_pool, compute_reply.
  repeat keeps_lock_step.
Qed.

Lemma keeps_lock_switch_inference_backend target :
  keeps_lock (switch_inference_backend X target).
Proof. unfold switch_inference_backend. repeat keeps_lock_step. Qed.

(** With the lock held, no call of the module frees it or changes the
    cache. *)
Lemma run_call_locked (c : ApiCall) (w : World) :
  fetched_model_configs_lock w = true →
  fetched_model_configs_lock (run_call X c w) = true
  ∧ fetched_model_configs (run_call X c w) = fetched_model_configs w.
Proof.
  destruct c; simpl.
  - apply keeps_lock_fetch_model_config.
  - apply keeps_lock_get_dtype.
  - apply keeps_lock_get_supported.
  - apply keeps_lock_get_inference_backend.
  - apply keeps_lock_create_model.
  - apply keeps_lock_compute_model_replies.
  - apply keeps_lock_switch_inference_backend.
  - apply keeps_lock_switch_inference_backend.
Qed.

Lemma run_calls_locked (cs : list ApiCall) (w : World) :
  fetched_model_configs_lock w = true →
  fetched_model_configs_lock (run_calls X cs w) = true
  ∧ fetched_model_configs (run_calls X cs w) = fetched_model_configs w.
Proof.
  revert w. induction cs as [|c cs IH]; intros w Hl; simpl; [done|].
  destruct (run_call_locked c w Hl) as [Hl' Hc'].
  destruct (IH _ Hl') as [Hl'' Hc'']. split; [done | congruence].
Qed.

End Lock.

(** ** Counting fetches and cache entries *)

Lemma underlying_fetches_app (name : string) (tr1 tr2 : list Event) :
  underlying_fetches name (tr1 ++ tr2) =
    underlying_fetches name tr1 + underlying_fetches name tr2.
Proof.
  unfold underlying_fetches. by rewrite List.filter_app, length_app.
Qed.

Lemma underlying_fetches_fetch (name n : string) (res : PyExc + ModelConfig) :
  underlying_fetches name [EvFromPretrained n res] = if decide (n = name) then 1 else 0.
Proof.
  unfold underlying_fetches. simpl.
  destruct (decide (n = name)) as [->|Hne].
  - by rewrite bool_decide_eq_true_2.
  - by rewrite bool_decide_eq_false_2.
Qed.

Lemma filter_none {A} (f : A → bool) (l : list A) :
  (∀ x, In x l → f x = false) → List.filter f l = [].
Proof.
  induction l as [|a l IH]; intros Hf; simpl; [done|].
  rewrite (Hf a) by (by left). apply IH. intros x Hx. apply Hf. by right.
Qed.

Lemma keys_filter_NoDup (name : string) (l : list (string * ModelConfig)) :
  NoDup (l.*1) →
  length (List.filter (λ kv : string * ModelConfig, bool_decide (kv.1 = name)) l) ≤ 1.
Proof.
  induction l as [|[k v] l IH]; simpl; [lia|].
  intros Hnd. apply NoDup_cons in Hnd as [Hk Hnd].
  destruct (decide (k = name)) as [->|Hne].
  - rewrite bool_decide_eq_true_2 by done. simpl.
    assert (List.filter (λ kv : string * ModelConfig, bool_decide (kv.1 = name)) l = [])
      as ->; [|simpl; lia].
    apply filter_none. intros [k' v'] Hin. simpl. apply bool_decide_eq_false_2.
    intros ->. apply Hk. apply list_elem_of_fmap.
    exists (name, v'). split; [done|]. by apply list_elem_of_In.
  - rewrite bool_decide_eq_false_2 by done. by apply IH.
Qed.

(** A dict has one entry for a key it holds and none for any other. *)
Lemma entries_for_lookup (name : string) (m : gmap string ModelConfig) :
  entries_for name m = match m !! name with Some _ => 1 | None => 0 end.
Proof.
  unfold entries_for.
  pose proof (keys_filter_NoDup name (map_to_list m) (NoDup_fst_map_to_list m)) as Hle.
  destruct (m !! name) as [c|] eqn:Hm.
  - apply elem_of_map_to_list in Hm.
    assert (In (name, c)
              (List.filter (λ kv : string * ModelConfig, bool_decide (kv.1 = name))
                           (map_to_list m))) as Hin.
    { apply List.filter_In. split; [by apply list_elem_of_In|].
      by apply bool_decide_eq_true_2. }
    destruct (List.filter _ (map_to_list m)); [done | simpl in *; lia].
  - assert (List.filter (λ kv : string * ModelConfig, bool_decide (kv.1 = name))
                        (map_to_list m) = []) as ->; [|done].
    apply filter_none. intros [k v] Hin. simpl. apply bool_decide_eq_false_2.
    intros ->. apply list_elem_of_In, elem_of_map_to_list in Hin. congruence.
Qed.

Lemma entries_for_le_1 (name : string) (m : gmap string ModelConfig) :
  entries_for name m ≤ 1.
Proof. rewrite entries_for_lookup. destruct (m !! name); lia. Qed.

Section Cache.
Context (X : Externals).

Lemma fetch_inv_initial (fs : gset string) : fetch_inv (initial_world fs).
Proof.
  intros n. simpl. rewrite lookup_empty.
  split; [unfold underlying_fetches; simpl; lia | done].
Qed.

Lemma fetch_inv_step (name : string) (w : World) :
  fetch_inv w → fetch_inv (fetch_model_config X name w).2.
Proof.
  intros Hinv.
  destruct (fetched_model_configs_lock w) eqn:Hl.
  { by rewrite fetch_locked. }
  destruct (fetched_model_configs w !! name) as [c|] eqn:Hc.
  { by rewrite (fetch_cached X name w c). }
  pose proof (Hinv name) as Hname. rewrite Hc in Hname.
  destruct Hname as [_ Hzero]. specialize (Hzero Hl).
  destruct (from_pretrained_result X (trace w) name) as [e|d] eqn:Hr.
  - rewrite (fetch_uncached_raises X name w e) by done. simpl.
    intros n. simpl. specialize (Hinv n).
    rewrite underlying_fetches_app, underlying_fetches_fetch.
    destruct (decide (name = n)) as [<-|Hne].
    + rewrite Hc. split; [lia | done].
    + destruct (fetched_model_configs w !! n); [lia|].
      split; [lia | done].
  - rewrite (fetch_uncached X name w d) by done. simpl.
    intros n. simpl. specialize (Hinv n).
    rewrite underlying_fetches_app, underlying_fetches_fetch.
    destruct (decide (name = n)) as [<-|Hne].
    + rewrite lookup_insert_eq. lia.
    + rewrite lookup_insert_ne by done.
      destruct (fetched_model_configs w !! n); [lia|].
      destruct Hinv as [Hle Hz]. split; [lia|]. intros _.
      rewrite Hz by done. done.
Qed.

Lemma fetch_inv_all (names : list string) (w : World) :
  fetch_inv w → fetch_inv (fetch_all X names w).
Proof.
  revert w. induction names as [|n names IH]; intros w Hinv; simpl; [done|].
  by apply IH, fetch_inv_step.
Qed.

(** From the start of the process on, the registry is asked at most once
    for each name, whatever is called, and however the calls end. *)
Lemma fetch_all_fetches_once (fs : gset string) (names : list string) (n : string) :
  underlying_fetches n (trace (fetch_all X names (initial_world fs))) ≤ 1.
Proof.
  pose proof (fetch_inv_all names _ (fetch_inv_initial fs) n) as Hn.
  destruct (fetched_model_configs _ !! n); lia.
Qed.

(** A fetch keeps the cached objects older than every new one. *)
Lemma cached_objects_known_step (name : string) (w : World) :
  cached_objects_known w →
  cached_objects_known (fetch_model_config X name w).2.
Proof.
  intros Hk.
  destruct (fetched_model_configs_lock w) eqn:Hl.
  { by rewrite fetch_locked. }
  destruct (fetched_model_configs w !! name) as [c|] eqn:Hc.
  { by rewrite (fetch_cached X name w c). }
  destruct (from_pretrained_result X (trace w) name) as [e|d] eqn:Hr.
  - by rewrite (fetch_uncached_raises X name w e).
  - rewrite (fetch_uncached X name w d) by done. intros n c. simpl.
    destruct (decide (name = n)) as [<-|Hne].
    + rewrite lookup_insert_eq. intros [= <-]. simpl. lia.
    + rewrite lookup_insert_ne by done. intros Hn. specialize (Hk n c Hn). lia.
Qed.

(** C1. From a world in which the lock is free and the registry answers for
    the name (when it is not cached yet), [fetch_model_config] returns a
    config object; a second call returns the very same object and changes
    nothing, so that both calls together ask the registry once for an
    uncached name and not at all for a cached one; and after any sequence
    of calls the cache has at most one entry for any name. *)
Theorem fetch_model_config_cached (name : string) (w : World) :
  fetched_model_configs_lock w = false →
  (fetched_model_configs w !! name = None →
   ∃ d, from_pretrained_result X (trace w) name = inr d) →
  ∃ (c : ModelConfig) (w1 : World),
    fetch_model_config X name w = (Returned c, w1)
    ∧ fetch_model_config X name w1 = (Returned c, w1)
    ∧ underlying_fetches name (trace w1) =
        underlying_fetches name (trace w) +
        match fetched_model_configs w !! name with Some _ => 0 | None => 1 end
    ∧ ∀ (names : list string) (n : string),
        entries_for n (fetched_model_configs (fetch_all X names w)) ≤ 1.
Proof.
  intros Hl Hreg.
  destruct (fetched_model_configs w !! name) as [c|] eqn:Hc.
  - exists c, w. rewrite (fetch_cached X name w c) by done.
    repeat split; [lia | intros; apply entries_for_le_1].
  - destruct (Hreg eq_refl) as [d Hd].
    pose proof (fetch_uncached X name w d Hl Hc Hd) as Hfetch.
    simpl in Hfetch. rewrite Hfetch.
    eexists _, _. split; [reflexivity|].
    split; [|split].
    + apply fetch_cached; [done|]. simpl. apply lookup_insert_eq.
    + simpl. rewrite underlying_fetches_app, underlying_fetches_fetch.
      by rewrite decide_True.
    + intros; apply entries_for_le_1.
Qed.

(** C9. When the registry raises for an uncached name, the exception comes
    out of [fetch_model_config], the cache is as it was, and the lock
    stays held: whatever functions of the module are called afterwards,
    the lock is still held and the cache unchanged, and every call of
    [fetch_model_config], for any name, waits for ever. *)
Theorem fetch_failure_blocks_forever (name : string) (w : World) (e : PyExc) :
  fetched_model_configs_lock w = false →
  fetched_model_configs w !! name = None →
  from_pretrained_result X (trace w) name = inl e →
  ∃ w1 : World,
    fetch_model_config X name w = (Raised e, w1)
    ∧ fetched_model_configs w1 = fetched_model_configs w
    ∧ fetched_model_configs_lock w1 = true
    ∧ ∀ (later : list ApiCall) (name' : string),
        fetched_model_configs_lock (run_calls X later w1) = true
        ∧ fetched_model_configs (run_calls X later w1) = fetched_model_configs w
        ∧ fetch_model_config X name' (run_calls X later w1) =
            (Blocked, run_calls X later w1).
Proof.
  intros Hl Hc He.
  rewrite (fetch_uncached_raises X name w e) by done.
  eexists. split; [reflexivity|]. split; [done|]. split; [done|].
  intros later name'.
  match goal with
  | |- context [run_calls X later ?w1] =>
      destruct (run_calls_locked X later w1 eq_refl) as [Hl' Hc']
  end.
  split; [done|]. split; [done|]. by apply fetch_locked.
Qed.

End Cache.

(** ** Choosing a backend *)

Section Backends.
Context (X : Externals).

Lemma get_supported_starchat (name : string) (w : World) :
  str_contains "starchat" name = true →
  get_supported_inference_backends X name w =
    (Returned ["tgi"; "hf_transformers"], w).
Proof.
  intros Hs. unfold get_supported_inference_backends. by rewrite Hs.
Qed.

Lemma get_supported_fetched (name : string) (w w1 : World) (c : ModelConfig) :
  str_contains "starchat" name = false →
  fetch_model_config X name w = (Returned c, w1) →
  get_supported_inference_backends X name w =
    (Returned (if list_contains (model_type c) generally_supported_model_types
               then ["vllm"; "tgi"; "hf_transformers"] else []), w1).
Proof.
  intros Hs Hf. unfold get_supported_inference_backends. rewrite Hs.
  unfold mbind, M_bind. rewrite Hf.
  by destruct (list_contains _ _).
Qed.

(** When the config cannot be had, no list of backends is returned. *)
Lemma get_supported_not_fetched (name : string) (w : World) :
  str_contains "starchat" name = false →
  (∀ c w1, fetch_model_config X name w ≠ (Returned c, w1)) →
  ∀ l w1, get_supported_inference_backends X name w ≠ (Returned l, w1).
Proof.
  intros Hs Hf l w1. unfold get_supported_inference_backends. rewrite Hs.
  unfold mbind, M_bind.
  destruct (fetch_model_config X name w) as [[c| |] w'] eqn:Hfetch; [|done..].
  by destruct (Hf c w').
Qed.

(** C2. A name that contains "starchat" gets tgi and hf_transformers, and
    the registry is not asked; for any other name, once its config is
    fetched, a model type of the allow-list gets all three backends and any
    other model type gets none. *)
Theorem get_supported_inference_backends_spec (name : string) (w : World) :
  ((∃ pre post, name = pre +:+ "starchat" +:+ post) →
   get_supported_inference_backends X name w =
     (Returned ["tgi"; "hf_transformers"], w))
  ∧ (¬ (∃ pre post, name = pre +:+ "starchat" +:+ post) →
     ∀ (c : ModelConfig) (w1 : World),
       fetch_model_config X name w = (Returned c, w1) →
       (In (model_type c)
           ["llama"; "gpt_neox"; "gpt_bigcode"; "mpt";
            "RefinedWeb"; "RefinedWebModel"; "falcon"] →
        get_supported_inference_backends X name w =
          (Returned ["vllm"; "tgi"; "hf_transformers"], w1))
       ∧ (¬ In (model_type c)
             ["llama"; "gpt_neox"; "gpt_bigcode"; "mpt";
              "RefinedWeb"; "RefinedWebModel"; "falcon"] →
          get_supported_inference_backends X name w = (Returned [], w1))).
Proof.
  split.
  - intros Hs. apply get_supported_starchat. by apply str_contains_spec.
  - intros Hs c w1 Hf.
    assert (str_contains "starchat" name = false) as Hs'.
    { destruct (str_contains "starchat" name) eqn:E; [|done].
      by apply str_contains_spec in E. }
    rewrite (get_supported_fetched name w w1 c Hs' Hf).
    split; intros Hin.
    + apply list_contains_spec in Hin.
      unfold generally_supported_model_types. by rewrite Hin.
    + apply list_contains_false in Hin.
      unfold generally_supported_model_types. by rewrite Hin.
Qed.

(** The choice made below the first line of [get_inference_backend], for
    any list of supported backends. *)
Lemma select_inference_backend_cases (path : string) (sup : list string) (w : World) :
  let warned := log_event (EvPrint (tgi_warning path)) w in
  (In "vllm" sup →
   select_inference_backend path sup w = (Returned "vllm", w))
  ∧ (¬ In "vllm" sup → In "tgi" sup →
     "text-generation-inference" ∈ filesystem w →
     select_inference_backend path sup w = (Returned "tgi", w))
  ∧ (¬ In "vllm" sup → In "tgi" sup →
     "text-generation-inference" ∉ filesystem w →
     In "hf_transformers" sup →
     select_inference_backend path sup w = (Returned "hf_transformers", warned))
  ∧ (¬ In "vllm" sup → In "tgi" sup →
     "text-generation-inference" ∉ filesystem w →
     ¬ In "hf_transformers" sup →
     select_inference_backend path sup w = (Raised (no_backend_error path), warned))
  ∧ (¬ In "vllm" sup → ¬ In "tgi" sup → In "hf_transformers" sup →
     select_inference_backend path sup w = (Returned "hf_transformers", w))
  ∧ (¬ In "vllm" sup → ¬ In "tgi" sup → ¬ In "hf_transformers" sup →
     select_inference_backend path sup w = (Raised (no_backend_error path), w)).
Proof.
  intros warned. unfold select_inference_backend, is_tgi_installed, print.
  unfold_M.
  repeat split;
    repeat match goal with
    | |- In _ _ → _ => let H := fresh in intros H; apply list_contains_spec in H; rewrite H
    | |- ¬ In _ _ → _ => let H := fresh in intros H; apply list_contains_false in H; rewrite H
    | |- _ ∈ _ → _ => let H := fresh in intros H; rewrite (bool_decide_eq_true_2 _ H)
    | |- _ ∉ _ → _ => let H := fresh in intros H; rewrite (bool_decide_eq_false_2 _ H)
    end; done.
Qed.

(** C3. With the supported backends at hand, [get_inference_backend]
    answers vllm when it is among them; else, when tgi is among them, tgi
    if the marker path exists, and otherwise it prints the warning and goes
    on; then hf_transformers when it is among them; and it raises when
    nothing is left. *)
Theorem get_inference_backend_priority
    (path : string) (w : World) (sup : list string) (w1 : World) :
  get_supported_inference_backends X path w = (Returned sup, w1) →
  let warned := log_event (EvPrint (tgi_warning path)) w1 in
  (In "vllm" sup →
   get_inference_backend X path w = (Returned "vllm", w1))
  ∧ (¬ In "vllm" sup → In "tgi" sup →
     "text-generation-inference" ∈ filesystem w1 →
     get_inference_backend X path w = (Returned "tgi", w1))
  ∧ (¬ In "vllm" sup → In "tgi" sup →
     "text-generation-inference" ∉ filesystem w1 →
     In "hf_transformers" sup →
     get_inference_backend X path w = (Returned "hf_transformers", warned))
  ∧ (¬ In "vllm" sup → In "tgi" sup →
     "text-generation-inference" ∉ filesystem w1 →
     ¬ In "hf_transformers" sup →
     get_inference_backend X path w = (Raised (no_backend_error path), warned))
  ∧ (¬ In "vllm" sup → ¬ In "tgi" sup → In "hf_transformers" sup →
     get_inference_backend X path w = (Returned "hf_transformers", w1))
  ∧ (¬ In "vllm" sup → ¬ In "tgi" sup → ¬ In "hf_transformers" sup →
     get_inference_backend X path w = (Raised (no_backend_error path), w1)).
Proof.
  intros Hsup warned.
  assert (get_inference_backend X path w = select_inference_backend path sup w1)
    as ->.
  { unfold get_inference_backend, mbind, M_bind. by rewrite Hsup. }
  apply select_inference_backend_cases.
Qed.

End Backends.

(** ** The factory *)

Lemma model_class_table_NoDup : NoDup (model_class_table.*1).
Proof. apply (bool_decide_unpack _). by vm_compute. Qed.

Lemma model_classes_lookup (t : string) (K : ModelClass) :
  model_classes !! t = Some K ↔ (t, K) ∈ model_class_table.
Proof.
  unfold model_classes. symmetry.
  apply elem_of_list_to_map, model_class_table_NoDup.
Qed.

Lemma model_classes_unknown (t : string) :
  model_classes !! t = None ↔ t ∉ model_class_table.*1.
Proof. unfold model_classes. symmetry. apply not_elem_of_list_to_map. Qed.

Lemma merge_kwargs_disjoint (a b : gmap string PyVal) :
  a ##ₘ b → merge_kwargs a b = Some (a ∪ b).
Proof. intros Hd. unfold merge_kwargs. by rewrite decide_True. Qed.

Lemma merge_kwargs_clash (a b : gmap string PyVal) (k : string) :
  is_Some (a !! k) → is_Some (b !! k) → merge_kwargs a b = None.
Proof.
  intros [x Hx] [y Hy]. unfold merge_kwargs. rewrite decide_False; [done|].
  intros Hd. by apply (map_disjoint_spec a b) with (i := k) (x := x) (y := y) in Hd.
Qed.

Section Factory.
Context (X : Externals).

(** A keyword given both in [model_args] and in [kwargs]: the call fails
    before any constructor runs. *)
Lemma create_model_clash (t name : string) (K : ModelClass)
    (args kwargs : gmap string PyVal) (k : string) (w : World) :
  (t, K) ∈ model_class_table →
  is_Some (args !! k) → is_Some (kwargs !! k) →
  create_model X t name args kwargs w = (Raised multiple_values_error, w).
Proof.
  intros Ht Ha Hk. apply model_classes_lookup in Ht.
  unfold create_model. rewrite Ht. by rewrite (merge_kwargs_clash args kwargs k).
Qed.

(** A wrapper class outside these files whose constructor returns: the
    call is on record with the name and with the merged keywords. *)
Lemma create_model_external (t name : string) (K : ModelClass)
    (args kwargs : gmap string PyVal) (w : World) :
  (t, K) ∈ model_class_table → K ≠ Dolphin → args ##ₘ kwargs →
  wrapper_init_result X (trace w) K name (args ∪ kwargs) = None →
  create_model X t name args kwargs w =
    (Returned (mkWrapper K (next_oid w)),
     log_event (EvInit K (next_oid w) name (args ∪ kwargs) None)
               (set_next_oid (S (next_oid w)) w)).
Proof.
  intros Ht HK Hd Hr. apply model_classes_lookup in Ht.
  unfold create_model. rewrite Ht, (merge_kwargs_disjoint _ _ Hd).
  unfold fresh_oid. unfold_M.
  destruct K; try done; unfold wrapper_init, external_init; simpl; by rewrite Hr.
Qed.

(** C4. A type that is not a key of the table raises. For a key of the
    table: a keyword given both in [model_args] and in [kwargs] is a
    [TypeError], and nothing is built; with no keyword given twice, the
    constructor of the class found in the table is called with the name
    and with exactly the entries of [model_args] and of [kwargs] as
    keywords. For a class outside these files that call is on record, and
    the new instance of the class is returned when the constructor
    returns, while its exception comes out when it raises; for [Dolphin]
    the constructor is [Dolphin.__init__] of dolphin.py. *)
Theorem create_model_spec (t name : string)
    (args kwargs : gmap string PyVal) (w : World) :
  (t ∉ model_class_table.*1 →
   create_model X t name args kwargs w =
     (Raised (mkExc Exception ["Unknown model type " +:+ dquote +:+ t +:+ dquote]), w))
  ∧ (∀ K : ModelClass,
       (t, K) ∈ model_class_table →
       (∀ k, is_Some (args !! k) → is_Some (kwargs !! k) →
             ∃ e, create_model X t name args kwargs w = (Raised e, w)
                  ∧ exc_class e = TypeError)
       ∧ (args ##ₘ kwargs →
          ∃ kw : gmap string PyVal,
            (∀ k v, kw !! k = Some v ↔ args !! k = Some v ∨ kwargs !! k = Some v)
            ∧ (K ≠ Dolphin →
               create_model X t name args kwargs w =
                 (match wrapper_init_result X (trace w) K name kw with
                  | None => Returned (mkWrapper K (next_oid w))
                  | Some e => Raised e
                  end,
                  mkWorld (fetched_model_configs w) (fetched_model_configs_lock w)
                          (filesystem w) (exc_info w) (S (next_oid w))
                          (trace w ++
                             [EvInit K (next_oid w) name kw
                                     (wrapper_init_result X (trace w) K name kw)])))
            ∧ (K = Dolphin →
               create_model X t name args kwargs w =
                 match Dolphin_init X (next_oid w) name kw
                                    (set_next_oid (S (next_oid w)) w) with
                 | (Returned _, w1) => (Returned (mkWrapper Dolphin (next_oid w)), w1)
                 | (Raised e, w1) => (Raised e, w1)
                 | (Blocked, w1) => (Blocked, w1)
                 end))).
Proof.
  split.
  - intros Ht. apply model_classes_unknown in Ht.
    unfold create_model. by rewrite Ht.
  - intros K Ht. split.
    + intros k Ha Hk.
      rewrite (create_model_clash t name K args kwargs k w Ht Ha Hk).
      by eexists.
    + intros Hd. apply model_classes_lookup in Ht.
      exists (args ∪ kwargs). split; [|split].
      * intros k v. by apply lookup_union_Some.
      * intros HK. unfold create_model.
        rewrite Ht, (merge_kwargs_disjoint _ _ Hd).
        unfold fresh_oid. unfold_M.
        destruct K; try done; unfold wrapper_init, external_init; simpl;
          by destruct (wrapper_init_result _ _ _ _ _).
      * intros ->. unfold create_model.
        rewrite Ht, (merge_kwargs_disjoint _ _ Hd).
        unfold fresh_oid, wrapper_init. unfold_M.
        by destruct (Dolphin_init _ _ _ _ _) as [[[]| |] w1].
Qed.

End Factory.

(** ** The reply driver *)

Section Replies.
Context (X : Externals).

Lemma compute_reply_dict (model : Model) (bundle : gmap string PyVal)
    (stop_event : PyVal) (w : World) :
  bundle !! "stop_event" = None →
  compute_reply X model (ConvDict bundle) stop_event w =
    model_reply X model [] (<["stop_event" := stop_event]> bundle) w.
Proof.
  intros Hb. unfold compute_reply.
  rewrite merge_kwargs_disjoint by (by apply map_disjoint_singleton_r).
  by rewrite insert_union_singleton_r.
Qed.

(** A dict that has a "stop_event" of its own cannot be unpacked next to
    the keyword [stop_event]. *)
Lemma compute_reply_dict_clash (model : Model) (bundle : gmap string PyVal)
    (stop_event : PyVal) (w : World) :
  is_Some (bundle !! "stop_event") →
  compute_reply X model (ConvDict bundle) stop_event w =
    (Raised multiple_values_error, w).
Proof.
  intros Hb. unfold compute_reply.
  rewrite (merge_kwargs_clash bundle _ "stop_event"); [done|done|].
  rewrite lookup_singleton_eq. by eexists.
Qed.

Lemma map_each_compute_reply (model : Model) (stop_event : PyVal)
    (convs : list Conversation) (w : World) :
  (∀ c, c ∈ convs →
        (∃ turns, c = ConvList turns)
        ∨ (∃ bundle, c = ConvDict bundle ∧ bundle !! "stop_event" = None)) →
  (∀ tr args kw, ∃ v, reply_result X tr (model_oid model) args kw = inr v) →
  ∃ (out : list PyVal) (events : list Event),
    map_each convs (λ c, compute_reply X model c stop_event) w =
      (Returned out,
       mkWorld (fetched_model_configs w) (fetched_model_configs_lock w)
               (filesystem w) (exc_info w) (next_oid w) (trace w ++ events))
    ∧ Forall3 (dispatched model stop_event) convs out events.
Proof.
  intros Hshape Hreply. revert w Hshape.
  induction convs as [|c convs IH]; intros w Hshape.
  - exists [], []. split; [|constructor].
    simpl. unfold_M. rewrite app_nil_r. by destruct w.
  - assert (∃ ev r w',
      compute_reply X model c stop_event w = (Returned r, w')
      ∧ dispatched model stop_event c r ev
      ∧ w' = log_event ev w) as (ev & r & w' & Hc & Hdisp & ->).
    { destruct (Hshape c) as [[turns ->]|[bundle [-> Hb]]]; [by left|..].
      - destruct (Hreply (trace w) [ConvList turns] {["stop_event" := stop_event]})
          as [v Hv].
        eexists _, v, _. split; [|split; [constructor|reflexivity]].
        unfold compute_reply, model_reply. by rewrite Hv.
      - destruct (Hreply (trace w) [] (<["stop_event" := stop_event]> bundle))
          as [v Hv].
        eexists _, v, _. split; [|split; [constructor|reflexivity]].
        rewrite compute_reply_dict by done. unfold model_reply. by rewrite Hv. }
    destruct (IH (log_event ev w)) as (out & events & Hrest & Hall).
    { intros c' Hc'. apply Hshape. by right. }
    exists (r :: out), (ev :: events). split; [|by constructor].
    simpl. unfold mbind, M_bind at 1. rewrite Hc.
    unfold mbind, M_bind at 1. rewrite Hrest. simpl.
    unfold mret, M_ret. do 2 f_equal. by rewrite <- app_assoc.
Qed.

Lemma thread_pool_calls_app (tr1 tr2 : list Event) :
  thread_pool_calls (tr1 ++ tr2) = thread_pool_calls tr1 + thread_pool_calls tr2.
Proof. unfold thread_pool_calls. by rewrite List.filter_app, length_app. Qed.

Lemma thread_pool_calls_dispatched (model : Model) (stop_event : PyVal)
    (convs : list Conversation) (out : list PyVal) (events : list Event) :
  Forall3 (dispatched model stop_event) convs out events →
  thread_pool_calls events = 0.
Proof.
  induction 1 as [|c r ev convs out events Hd _ IH]; [done|].
  unfold thread_pool_calls in *. by destruct Hd.
Qed.

(** C5. No conversations: the empty list, at once; the world is as before,
    and so the thread-pool helper has been called no more often than
    before. *)
Theorem compute_model_replies_empty
    (model : Model) (descr : option string) (w : World) :
  compute_model_replies X model [] descr w = (Returned [], w)
  ∧ thread_pool_calls (trace (compute_model_replies X model [] descr w).2)
    = thread_pool_calls (trace w).
Proof. by split. Qed.

(** C6. For a non-empty list of conversations, each a list or a dict (a
    dict without a "stop_event" entry of its own), and a model whose
    [reply] returns: the helper is called, once; every list is answered by
    the positional reply call and every dict by the keyword reply call;
    and the i-th output is the reply to the i-th conversation. *)
Theorem compute_model_replies_dispatch (model : Model)
    (convs : list Conversation) (descr : option string) (w : World) :
  convs ≠ [] →
  (∀ c, c ∈ convs →
        (∃ turns, c = ConvList turns)
        ∨ (∃ bundle, c = ConvDict bundle ∧ bundle !! "stop_event" = None)) →
  (∀ tr args kw, ∃ v, reply_result X tr (model_oid model) args kw = inr v) →
  ∃ (out : list PyVal) (events : list Event) (w1 : World),
    compute_model_replies X model convs descr w = (Returned out, w1)
    ∧ trace w1 =
        trace w ++ EvThreadPool (num_threads model) convs descr true :: events
    ∧ thread_pool_calls (trace w1) = thread_pool_calls (trace w) + 1
    ∧ Forall3 (dispatched model (PyObj (next_oid w))) convs out events.
Proof.
  intros Hne Hshape Hreply.
  unfold compute_model_replies.
  rewrite bool_decide_eq_false_2 by (by destruct convs).
  unfold process_with_thread_pool, fresh_oid. unfold_M. simpl.
  destruct (map_each_compute_reply model (PyObj (next_oid w)) convs
              (set_next_oid (S (next_oid w))
                 (log_event (EvThreadPool (num_threads model) convs descr true) w))
              Hshape Hreply) as (out & events & Hrun & Hall).
  rewrite Hrun. eexists out, events, _. split; [reflexivity|].
  simpl. rewrite <- app_assoc. split; [done|]. split; [|done].
  rewrite thread_pool_calls_app. f_equal.
  change (EvThreadPool (num_threads model) convs descr true :: events)
    with ([EvThreadPool (num_threads model) convs descr true] ++ events).
  rewrite thread_pool_calls_app.
  by rewrite (thread_pool_calls_dispatched _ _ _ _ _ Hall).
Qed.

End Replies.

(** ** What is raised *)

Section Errors.
Context (X : Externals).

(** C7. An unknown model type and a model with no backend raise
    [Exception] with a message that quotes the type or the path. A
    conversation that is neither a list nor a dict always raises, through a
    bare [raise] that names no exception of its own: what comes out is the
    exception being handled, if there is one, and otherwise the
    [RuntimeError] that Python raises with its own message. *)
Theorem raised_exceptions :
  (∀ (t name : string) (args kwargs : gmap string PyVal) (w : World),
     t ∉ model_class_table.*1 →
     ∃ e, create_model X t name args kwargs w = (Raised e, w)
          ∧ exc_class e = Exception
          ∧ exc_args e = ["Unknown model type " +:+ dquote +:+ t +:+ dquote])
  ∧ (∀ (path : string) (w w1 : World),
       get_supported_inference_backends X path w = (Returned [], w1) →
       ∃ e, get_inference_backend X path w = (Raised e, w1)
            ∧ exc_class e = Exception
            ∧ exc_args e =
                ["No inference backend supported for model " +:+ dquote +:+ path])
  ∧ (∀ (model : Model) (v stop_event : PyVal) (w : World),
       ∃ e, compute_reply X model (ConvOther v) stop_event w = (Raised e, w)
            ∧ (∀ handled, exc_info w = Some handled → e = handled)
            ∧ (exc_info w = None →
               exc_class e = RuntimeError
               ∧ exc_args e = ["No active exception to reraise"])).
Proof.
  split; [|split].
  - intros t name args kwargs w Ht. apply model_classes_unknown in Ht.
    unfold create_model. rewrite Ht. by eexists.
  - intros path w w1 Hsup.
    unfold get_inference_backend, mbind, M_bind. rewrite Hsup.
    by eexists.
  - intros model v stop_event w.
    unfold compute_reply, bare_raise.
    destruct (exc_info w) as [handled|]; eexists; (split; [reflexivity|]).
    + split; [by intros ? [= <-] | done].
    + split; [done | by intros _].
Qed.

End Errors.

(** ** The backend switcher *)

Lemma str_eq_val_true (name : string) (target : PyVal) :
  str_eq_val name target = true ↔ target = PyStr name.
Proof.
  destruct target; simpl; try (split; [done | discriminate]).
  rewrite bool_decide_eq_true. split; [by intros -> | by intros [= ->]].
Qed.

Lemma str_eq_val_false (name : string) (target : PyVal) :
  str_eq_val name target = false ↔ target ≠ PyStr name.
Proof.
  rewrite <- str_eq_val_true. by destruct (str_eq_val name target).
Qed.

Section Switch.
Context (X : Externals).

(** The loop of [switch_inference_backend] over any table: whatever the
    unload functions do, only modules of entries whose name differs from
    the target are unloaded, each in turn. *)
Lemma switch_loop_trace (target : PyVal)
    (fns : list (string * BackendModule)) (w : World) :
  ∃ new : list Event,
    (for_each fns
       (λ '(inference_backend_name, unload_backend_fn),
          if str_eq_val inference_backend_name target then mret tt
          else backend_unload_model X unload_backend_fn) w).2
    = mkWorld (fetched_model_configs w) (fetched_model_configs_lock w)
              (filesystem w) (exc_info w) (next_oid w) (trace w ++ new)
    ∧ unloaded_modules new `prefix_of`
        (List.filter (λ nm, negb (str_eq_val nm.1 target)) fns).*2.
Proof.
  revert w. induction fns as [|[name m] fns IH]; intros w.
  - exists []. simpl. rewrite app_nil_r. by destruct w.
  - simpl. destruct (str_eq_val name target) eqn:Heq; simpl.
    + unfold mbind, M_bind, mret, M_ret at 1. apply IH.
    + unfold mbind, M_bind, backend_unload_model at 1.
      destruct (unload_result X (trace w) m) as [e|] eqn:Hr; simpl.
      * exists [EvUnload m (Some e)]. split; [done|].
        simpl. by exists (List.filter (λ nm, negb (str_eq_val nm.1 target)) fns).*2.
      * destruct (IH (log_event (EvUnload m None) w)) as (new & Hw & Hpre).
        exists (EvUnload m None :: new). split.
        -- rewrite Hw. simpl. by rewrite <- app_assoc.
        -- simpl. by apply prefix_cons.
Qed.

(** When no unload function raises, the loop runs to its end. *)
Lemma switch_loop_complete (target : PyVal)
    (fns : list (string * BackendModule)) (w : World) :
  (∀ tr m, unload_result X tr m = None) →
  for_each fns
    (λ '(inference_backend_name, unload_backend_fn),
       if str_eq_val inference_backend_name target then mret tt
       else backend_unload_model X unload_backend_fn) w
  = (Returned tt,
     mkWorld (fetched_model_configs w) (fetched_model_configs_lock w)
             (filesystem w) (exc_info w) (next_oid w)
             (trace w ++
                ((λ nm, EvUnload nm.2 None) <$>
                 List.filter (λ nm, negb (str_eq_val nm.1 target)) fns))).
Proof.
  intros Hok. revert w. induction fns as [|[name m] fns IH]; intros w.
  - simpl. unfold mret, M_ret. rewrite app_nil_r. by destruct w.
  - simpl. destruct (str_eq_val name target) eqn:Heq; simpl.
    + unfold mbind, M_bind, mret, M_ret at 1. apply IH.
    + unfold mbind, M_bind, backend_unload_model at 1. rewrite Hok.
      rewrite IH. simpl. by rewrite <- app_assoc.
Qed.

Lemma unloaded_modules_unloads (ms : list (string * BackendModule)) :
  unloaded_modules ((λ nm, EvUnload nm.2 None) <$> ms) = ms.*2.
Proof.
  unfold unloaded_modules.
  induction ms as [|[n m] ms IH]; csimpl; [done|]. by f_equal.
Qed.

(** C8. Whatever the target, the calls that [switch_inference_backend] adds
    to the record contain no unload of the target's own backend; and when
    the unload functions return, the switch returns and has unloaded, once
    each, every known backend whose name differs from the target. *)
Theorem switch_inference_backend_unloads_others (target : PyVal) (w : World) :
  ∃ new : list Event,
    trace (switch_inference_backend X target w).2 = trace w ++ new
    ∧ (∀ name m, (name, m) ∈ unload_backend_fns →
                 target = PyStr name → m ∉ unloaded_modules new)
    ∧ ((∀ tr m, unload_result X tr m = None) →
       (switch_inference_backend X target w).1 = Returned tt
       ∧ NoDup (unloaded_modules new)
       ∧ ∀ name m, (name, m) ∈ unload_backend_fns →
                   target ≠ PyStr name → m ∈ unloaded_modules new).
Proof.
  destruct (switch_loop_trace target unload_backend_fns w) as (new & Hw & Hpre).
  exists new. unfold switch_inference_backend. split; [by rewrite Hw|]. split.
  - intros name m Hin -> Hm.
    eapply elem_of_prefix in Hm; [|exact Hpre].
    apply list_elem_of_fmap in Hm as ([name' m'] & -> & Hin').
    apply list_elem_of_In, List.filter_In in Hin' as [Hin' Hne].
    apply list_elem_of_In in Hin'. simpl in *.
    apply negb_true_iff, bool_decide_eq_false in Hne.
    unfold unload_backend_fns in Hin, Hin'. set_unfold. destruct_or!; by simplify_eq.
  - intros Hok.
    assert (new = (λ nm, EvUnload nm.2 None) <$>
                  List.filter (λ nm, negb (str_eq_val nm.1 target)) unload_backend_fns)
      as ->.
    { rewrite (switch_loop_complete target unload_backend_fns w Hok) in Hw.
      simpl in Hw. injection Hw as Hw. by apply app_inv_head in Hw. }
    rewrite (switch_loop_complete target unload_backend_fns w Hok).
    split; [done|]. rewrite unloaded_modules_unloads. split.
    + assert (NoDup (unload_backend_fns.*2)) as Hnd.
      { apply (bool_decide_unpack _). by vm_compute. }
      revert Hnd. generalize unload_backend_fns.
      induction l as [|[n m] l IH]; simpl; intros Hnd; [constructor|].
      apply NoDup_cons in Hnd as [Hm Hnd].
      destruct (negb (str_eq_val n target)); simpl; [|by apply IH].
      apply NoDup_cons. split; [|by apply IH].
      intros Hin. apply Hm.
      apply list_elem_of_fmap in Hin as ([n' m'] & -> & Hin).
      apply list_elem_of_In, List.filter_In in Hin as [Hin _].
      apply list_elem_of_fmap. exists (n', m'). split; [done|].
      by apply list_elem_of_In.
    + intros name m Hin Hne. apply list_elem_of_fmap. exists (name, m).
      split; [done|]. apply list_elem_of_In, List.filter_In.
      split; [by apply list_elem_of_In|]. simpl.
      by apply negb_true_iff, str_eq_val_false.
Qed.

(** C10. [unload_model] is [switch_inference_backend(None)]; no name
    equals [None]; any argument that is none of the four names does the
    same as [None]; and when the unload functions return, all four modules
    are unloaded, in the order of the table. *)
Theorem unload_model_unloads_all (w : World) :
  unload_model X w = switch_inference_backend X PyNone w
  ∧ (∀ name : string, str_eq_val name PyNone = false)
  ∧ (∀ target : PyVal,
       (∀ name, name ∈ ["hf_transformers"; "vllm"; "tgi"; "fastchat"] →
                target ≠ PyStr name) →
       switch_inference_backend X target w = unload_model X w)
  ∧ ((∀ tr m, unload_result X tr m = None) →
     unload_model X w =
       (Returned tt,
        mkWorld (fetched_model_configs w) (fetched_model_configs_lock w)
                (filesystem w) (exc_info w) (next_oid w)
                (trace w ++ [EvUnload HfTransformersModule None;
                             EvUnload VllmBackendModule None;
                             EvUnload TgiModule None;
                             EvUnload FastchatModule None]))).
Proof.
  split; [done|]. split; [done|]. split.
  - intros target Hne.
    unfold unload_model, switch_inference_backend, unload_backend_fns. simpl.
    rewrite !(proj2 (str_eq_val_false _ target)) by (apply Hne; set_solver).
    done.
  - intros Hok. unfold unload_model, switch_inference_backend.
    by rewrite (switch_loop_complete PyNone unload_backend_fns w Hok).
Qed.

End Switch.

(** ** The theorems at work on the sample environment *)

Lemma fetch_model_config_cached_witness :
  ∃ (c : ModelConfig) (w1 : World),
    fetch_model_config sample_externals "llama-7b" world0 = (Returned c, w1)
    ∧ fetch_model_config sample_externals "llama-7b" w1 = (Returned c, w1)
    ∧ underlying_fetches "llama-7b" (trace w1) = 1.
Proof.
  destruct (fetch_model_config_cached sample_externals "llama-7b" world0)
    as (c & w1 & H1 & H2 & H3 & _).
  - reflexivity.
  - intros _. eexists. vm_compute. reflexivity.
  - exists c, w1. split; [exact H1|]. split; [exact H2|].
    rewrite H3. vm_compute. reflexivity.
Defined.

Lemma fetch_failure_blocks_forever_witness :
  ∃ (e : PyExc) (w1 : World),
    fetch_model_config sample_externals "missing" world0 = (Raised e, w1)
    ∧ fetched_model_configs_lock w1 = true
    ∧ fetch_model_config sample_externals "llama-7b" w1 = (Blocked, w1).
Proof.
  destruct (fetch_failure_blocks_forever sample_externals "missing" world0
              (mkExc (OtherError "OSError")
                     ["missing is not a valid model identifier"]))
    as (w1 & H1 & _ & H3 & H4).
  - reflexivity.
  - reflexivity.
  - vm_compute. reflexivity.
  - eexists _, w1. split; [exact H1|]. split; [exact H3|].
    exact (proj2 (proj2 (H4 [] "llama-7b"))).
Defined.

Lemma get_supported_inference_backends_spec_witness :
  get_supported_inference_backends sample_externals
      "HuggingFaceH4/starchat-beta" world0
    = (Returned ["tgi"; "hf_transformers"], world0)
  ∧ (get_supported_inference_backends sample_externals "llama-7b" world0).1
    = Returned ["vllm"; "tgi"; "hf_transformers"]
  ∧ (get_supported_inference_backends sample_externals "bert-base" world0).1
    = Returned [].
Proof.
  split; [|split].
  - apply (proj1 (get_supported_inference_backends_spec sample_externals
                    "HuggingFaceH4/starchat-beta" world0)).
    by exists "HuggingFaceH4/", "-beta".
  - destruct (proj2 (get_supported_inference_backends_spec sample_externals
                       "llama-7b" world0)) with
      (c := mkModelConfig 0 "llama" "float16")
      (w1 := (fetch_model_config sample_externals "llama-7b" world0).2)
      as [Hin _].
    + intros Hs. apply str_contains_spec in Hs. vm_compute in Hs. discriminate.
    + vm_compute. reflexivity.
    + rewrite Hin; [reflexivity|]. simpl. tauto.
  - destruct (proj2 (get_supported_inference_backends_spec sample_externals
                       "bert-base" world0)) with
      (c := mkModelConfig 0 "bert" "float16")
      (w1 := (fetch_model_config sample_externals "bert-base" world0).2)
      as [_ Hout].
    + intros Hs. apply str_contains_spec in Hs. vm_compute in Hs. discriminate.
    + vm_compute. reflexivity.
    + rewrite Hout; [reflexivity|]. simpl. intuition discriminate.
Defined.

Lemma get_inference_backend_priority_witness :
  (get_inference_backend sample_externals "llama-7b" world0).1 = Returned "vllm"
  ∧ get_inference_backend sample_externals "starchat-beta" world_tgi
    = (Returned "tgi", world_tgi)
  ∧ get_inference_backend sample_externals "starchat-beta" world0
    = (Returned "hf_transformers",
       log_event (EvPrint (tgi_warning "starchat-beta")) world0)
  ∧ (get_inference_backend sample_externals "bert-base" world0).1
    = Raised (no_backend_error "bert-base").
Proof.
  split; [|split; [|split]].
  - destruct (get_inference_backend_priority sample_externals "llama-7b" world0
                ["vllm"; "tgi"; "hf_transformers"]
                (get_supported_inference_backends sample_externals
                   "llama-7b" world0).2) as (H & _).
    + vm_compute. reflexivity.
    + rewrite H; [reflexivity|]. simpl. tauto.
  - destruct (get_inference_backend_priority sample_externals "starchat-beta"
                world_tgi ["tgi"; "hf_transformers"] world_tgi)
      as (_ & H & _).
    + vm_compute. reflexivity.
    + apply H.
      * simpl. intuition discriminate.
      * simpl. tauto.
      * apply (bool_decide_unpack _). by vm_compute.
  - destruct (get_inference_backend_priority sample_externals "starchat-beta"
                world0 ["tgi"; "hf_transformers"] world0)
      as (_ & _ & H & _).
    + vm_compute. reflexivity.
    + apply H.
      * simpl. intuition discriminate.
      * simpl. tauto.
      * apply (bool_decide_unpack _). by vm_compute.
      * simpl. tauto.
  - destruct (get_inference_backend_priority sample_externals "bert-base" world0
                []
                (get_supported_inference_backends sample_externals
                   "bert-base" world0).2) as (_ & _ & _ & _ & _ & H).
    + vm_compute. reflexivity.
    + rewrite H; [reflexivity|..]; simpl; tauto.
Defined.

Lemma create_model_spec_witness :
  create_model sample_externals "unknown-type" "some/model" ∅ ∅ world0
    = (Raised (mkExc Exception
                 ["Unknown model type " +:+ dquote +:+ "unknown-type" +:+ dquote]),
       world0)
  ∧ ∃ kw : gmap string PyVal,
      create_model sample_externals "chatml" "some/model"
        {["tokenizer" := PyStr "fast"]} {["max_new_tokens" := PyInt 400]} world0
      = (Returned (mkWrapper ChatML 0),
         mkWorld ∅ false ∅ None 1 [EvInit ChatML 0 "some/model" kw None])
      ∧ kw !! "tokenizer" = Some (PyStr "fast")
      ∧ kw !! "max_new_tokens" = Some (PyInt 400).
Proof.
  split.
  - apply (proj1 (create_model_spec sample_externals "unknown-type" "some/model"
                    ∅ ∅ world0)).
    apply (bool_decide_unpack _). by vm_compute.
  - destruct (proj2 (create_model_spec sample_externals "chatml" "some/model"
                       {["tokenizer" := PyStr "fast"]}
                       {["max_new_tokens" := PyInt 400]} world0) ChatML)
      as (_ & Hcall).
    + apply (bool_decide_unpack _). by vm_compute.
    + destruct Hcall as (kw & Hkw & Hext & _).
      * apply (bool_decide_unpack _). by vm_compute.
      * exists kw. split; [by rewrite Hext|]. split; apply Hkw.
        -- left. apply lookup_singleton_eq.
        -- right. apply lookup_singleton_eq.
Defined.

(** A known type with "max_new_tokens" both in [model_args] and among the
    extra keywords: no instance comes back, and the world is as before, so
    no constructor has been called. *)
Lemma duplicate_keyword_builds_nothing :
  ∃ e : PyExc,
    create_model sample_externals "chatml" "some/model"
      {["max_new_tokens" := PyStr "400"]} {["max_new_tokens" := PyInt 512]} world0
    = (Raised e, world0)
    ∧ exc_class e = TypeError.
Proof.
  exists multiple_values_error. split; [by vm_compute | reflexivity].
Qed.

Lemma compute_model_replies_dispatch_witness :
  ∃ (out : list PyVal) (events : list Event) (w1 : World),
    compute_model_replies sample_externals sample_model
      [ConvList [PyStr "hello"]; ConvDict {["prompt" := PyStr "hi"]}]
      None world0 = (Returned out, w1)
    ∧ trace w1 =
        trace world0 ++
        EvThreadPool 4 [ConvList [PyStr "hello"]; ConvDict {["prompt" := PyStr "hi"]}]
                     None true :: events
    ∧ thread_pool_calls (trace w1) = thread_pool_calls (trace world0) + 1
    ∧ Forall3 (dispatched sample_model (PyObj 0))
        [ConvList [PyStr "hello"]; ConvDict {["prompt" := PyStr "hi"]}]
        out events.
Proof.
  apply (compute_model_replies_dispatch sample_externals sample_model
           [ConvList [PyStr "hello"]; ConvDict {["prompt" := PyStr "hi"]}]
           None world0).
  - discriminate.
  - intros c Hc.
    apply elem_of_cons in Hc as [->|Hc]; [left; by eexists|].
    apply elem_of_cons in Hc as [->|Hc]; [|by apply elem_of_nil in Hc].
    right. eexists. split; [reflexivity|]. by vm_compute.
  - intros tr args kw. by eexists.
Defined.

(** Dict-shaped conversations, one of them with a "stop_event" entry of
    its own: the helper is called, the first conversation is answered,
    the second meets a [TypeError] at the call, and there is no output. *)
Lemma stop_event_entry_is_not_dispatched :
  ∃ (e : PyExc) (kw : gmap string PyVal) (r : PyVal),
    compute_model_replies sample_externals sample_model
      [ConvDict {["prompt" := PyStr "hi"]};
       ConvDict (<["stop_event" := PyNone]> {["prompt" := PyStr "hi"]})]
      None world0
    = (Raised e,
       mkWorld ∅ false ∅ None 1
         [EvThreadPool 4
            [ConvDict {["prompt" := PyStr "hi"]};
             ConvDict (<["stop_event" := PyNone]> {["prompt" := PyStr "hi"]})]
            None true;
          EvReply 7 [] kw (inr r)])
    ∧ exc_class e = TypeError.
Proof.
  exists multiple_values_error. eexists _, _. split; [|reflexivity].
  vm_compute. reflexivity.
Qed.

Lemma raised_exceptions_witness :
  (∃ e, create_model sample_externals "unknown-type" "some/model" ∅ ∅ world0
          = (Raised e, world0)
        ∧ exc_class e = Exception
        ∧ exc_args e =
            ["Unknown model type " +:+ dquote +:+ "unknown-type" +:+ dquote])
  ∧ (∃ e w1, get_inference_backend sample_externals "bert-base" world0
               = (Raised e, w1)
             ∧ exc_class e = Exception
             ∧ exc_args e =
                 ["No inference backend supported for model " +:+ dquote +:+ "bert-base"])
  ∧ (∃ e, compute_reply sample_externals sample_model (ConvOther PyNone)
            (PyObj 0) world0 = (Raised e, world0)
          ∧ exc_class e = RuntimeError
          ∧ exc_args e = ["No active exception to reraise"]).
Proof.
  destruct (raised_exceptions sample_externals) as (H1 & H2 & H3).
  split; [|split].
  - apply H1. apply (bool_decide_unpack _). by vm_compute.
  - destruct (H2 "bert-base" world0
                (get_supported_inference_backends sample_externals
                   "bert-base" world0).2) as (e & He).
    + vm_compute. reflexivity.
    + by exists e, (get_supported_inference_backends sample_externals
                      "bert-base" world0).2.
  - destruct (H3 sample_model PyNone (PyObj 0) world0) as (e & He & _ & Hnone).
    exists e. split; [exact He|]. apply Hnone. reflexivity.
Defined.

(** A conversation that is [None], alone in the list: the exception that
    comes out has a message, the interpreter's. *)
Lemma malformed_conversation_has_message :
  ∃ (e : PyExc) (w1 : World),
    compute_model_replies sample_externals sample_model [ConvOther PyNone]
      None world0 = (Raised e, w1)
    ∧ compute_reply sample_externals sample_model (ConvOther PyNone)
        (PyObj 0) world0 = (Raised e, world0)
    ∧ exc_args e = ["No active exception to reraise"]
    ∧ exc_args e ≠ [].
Proof.
  eexists _, _. split; [vm_compute; reflexivity|].
  split; [reflexivity|]. split; [reflexivity | discriminate].
Qed.

Lemma switch_inference_backend_unloads_others_witness :
  ∃ new : list Event,
    trace (switch_inference_backend sample_externals (PyStr "vllm") world0).2
      = trace world0 ++ new
    ∧ (VllmBackendModule ∉ unloaded_modules new)
    ∧ (switch_inference_backend sample_externals (PyStr "vllm") world0).1
      = Returned tt
    ∧ HfTransformersModule ∈ unloaded_modules new
    ∧ TgiModule ∈ unloaded_modules new
    ∧ FastchatModule ∈ unloaded_modules new.
Proof.
  destruct (switch_inference_backend_unloads_others sample_externals
              (PyStr "vllm") world0) as (new & Htr & Hskip & Hall).
  destruct Hall as (Hret & _ & Hin); [done|].
  exists new. split; [exact Htr|]. split.
  { apply (Hskip "vllm"); [|done]. apply (bool_decide_unpack _). by vm_compute. }
  split; [exact Hret|].
  split; [|split].
  - apply (Hin "hf_transformers"); [|done].
    apply (bool_decide_unpack _). by vm_compute.
  - apply (Hin "tgi"); [|done]. apply (bool_decide_unpack _). by vm_compute.
  - apply (Hin "fastchat"); [|done]. apply (bool_decide_unpack _). by vm_compute.
Defined.

Lemma unload_model_unloads_all_witness :
  switch_inference_backend sample_externals (PyStr "openai") world0
    = unload_model sample_externals world0
  ∧ unloaded_modules (trace (unload_model sample_externals world0).2)
    = [HfTransformersModule; VllmBackendModule; TgiModule; FastchatModule].
Proof.
  destruct (unload_model_unloads_all sample_externals world0)
    as (_ & _ & Hsame & Hall).
  split.
  - apply Hsame. intros name Hname Heq. injection Heq as <-.
    revert Hname. apply (bool_decide_unpack _). by vm_compute.
  - rewrite Hall; [reflexivity | done].
Defined.

(** * Further properties of the module *)

(** ** Invariants kept by every call *)

Lemma preserves_ret {A} (I : World → Prop) (a : A) : preserves I (mret a).
Proof. by intros w Hw. Qed.

Lemma preserves_raise {A} (I : World → Prop) (e : PyExc) :
  preserves I (raise e : M A).
Proof. by intros w Hw. Qed.

Lemma preserves_bind {A B} (I : World → Prop) (m : M A) (k : A → M B) :
  preserves I m → (∀ a, preserves I (k a)) → preserves I (m ≫= k).
Proof.
  intros Hm Hk w Hw. specialize (Hm w Hw). unfold mbind, M_bind.
  destruct (m w) as [[a|e|] w']; simpl in *; [|done..]. by apply Hk.
Qed.

Lemma preserves_for_each {A} (I : World → Prop) (xs : list A) (body : A → M unit) :
  (∀ x, preserves I (body x)) → preserves I (for_each xs body).
Proof.
  intros Hbody. induction xs as [|x xs IH]; simpl.
  - apply preserves_ret.
  - apply preserves_bind; [apply Hbody | by intros _].
Qed.

Lemma preserves_map_each {A B} (I : World → Prop) (xs : list A) (f : A → M B) :
  (∀ x, preserves I (f x)) → preserves I (map_each xs f).
Proof.
  intros Hf. induction xs as [|x xs IH]; simpl.
  - apply preserves_ret.
  - apply preserves_bind; [apply Hf | intros y].
    apply preserves_bind; [apply IH | intros ys]. apply preserves_ret.
Qed.

Lemma preserves_is_tgi_installed (I : World → Prop) : preserves I is_tgi_installed.
Proof. by intros w Hw. Qed.

Lemma preserves_bare_raise {A} (I : World → Prop) : preserves I (bare_raise : M A).
Proof. intros w Hw. unfold bare_raise. by destruct (exc_info w). Qed.

Section Preserves.
Context (X : Externals) (I : World → Prop).
Hypothesis I_log : ∀ ev w, quiet_event ev = true → I w → I (log_event ev w).
Hypothesis I_oid : ∀ w, I w → I (set_next_oid (S (next_oid w)) w).
Hypothesis I_fetch : ∀ name, preserves I (fetch_model_config X name).

Lemma preserves_log (ev : Event) :
  quiet_event ev = true → preserves I (modify (log_event ev)).
Proof. intros Hq w Hw. by apply I_log. Qed.

Lemma preserves_fresh_oid : preserves I fresh_oid.
Proof. intros w Hw. by apply I_oid. Qed.

Lemma preserves_external_init cls self name kw :
  preserves I (external_init X cls self name kw).
Proof.
  intros w Hw. unfold external_init.
  destruct (wrapper_init_result _ _ _ _ _); by apply I_log.
Qed.

Lemma preserves_Huggingface_init self path kw :
  preserves I (Huggingface_init X self path kw).
Proof.
  intros w Hw. unfold Huggingface_init.
  destruct (huggingface_init_result _ _ _ _); by apply I_log.
Qed.

Lemma preserves_model_reply model args kw :
  preserves I (model_reply X model args kw).
Proof.
  intros w Hw. unfold model_reply.
  destruct (reply_result _ _ _ _ _); by apply I_log.
Qed.

Lemma preserves_backend_unload_model module :
  preserves I (backend_unload_model X module).
Proof.
  intros w Hw. unfold backend_unload_model.
  destruct (unload_result _ _ _); by apply I_log.
Qed.

Ltac preserves_step :=
  match goal with
  | |- preserves _ (_ ≫= _) => apply preserves_bind; [|intros ?]
  | |- preserves _ (for_each _ _) => apply preserves_for_each; intros ?
  | |- preserves _ (map_each _ _) => apply preserves_map_each; intros ?
  | |- preserves _ (if ?b then _ else _) => destruct b
  | |- preserves _ (match ?x with _ => _ end) => destruct x
  | |- preserves _ (let '(_, _) := ?x in _) => destruct x
  | |- preserves _ (mret _) => apply preserves_ret
  | |- preserves _ (raise _) => apply preserves_raise
  | |- preserves _ (modify (log_event _)) => apply preserves_log; reflexivity
  | |- preserves _ fresh_oid => apply preserves_fresh_oid
  | |- preserves _ is_tgi_installed => apply preserves_is_tgi_installed
  | |- preserves _ bare_raise => apply preserves_bare_raise
  | |- preserves _ (fetch_model_config _ _) => apply I_fetch
  | |- preserves _ (external_init _ _ _ _ _) => apply preserves_external_init
  | |- preserves _ (Huggingface_init _ _ _ _) => apply preserves_Huggingface_init
  | |- preserves _ (model_reply _ _ _ _) => apply preserves_model_reply
  | |- preserves _ (backend_unload_model _ _) => apply preserves_backend_unload_model
  end.

Lemma preserves_get_dtype name : preserves I (get_dtype X name).
Proof. unfold get_dtype. repeat preserves_step. Qed.

Lemma preserves_get_supported name :
  preserves I (get_supported_inference_backends X name).
Proof. unfold get_supported_inference_backends. repeat preserves_step. Qed.

Lemma preserves_get_inference_backend path :
  preserves I (get_inference_backend X path).
Proof.
  unfold get_inference_backend, select_inference_backend, print.
  apply preserves_bind; [apply preserves_get_supported | intros sup].
  repeat preserves_step.
Qed.

Lemma preserves_wrapper_init cls self name kw :
  preserves I (wrapper_init X cls self name kw).
Proof. unfold wrapper_init, Dolphin_init. repeat preserves_step. Qed.

Lemma preserves_create_model t name args kwargs :
  preserves I (create_model X t name args kwargs).
Proof.
  unfold create_model, wrapper_init, Dolphin_init. repeat preserves_step.
Qed.

Lemma preserves_compute_model_replies model convs descr :
  preserves I (compute_model_replies X model convs descr).
Proof.
  unfold compute_model_replies, process_with_thread_pool, compute_reply.
  repeat preserves_step.
Qed.

Lemma preserves_switch_inference_backend target :
  preserves I (switch_inference_backend X target).
Proof. unfold switch_inference_backend. repeat preserves_step. Qed.

Lemma run_call_preserves (c : ApiCall) (w : World) : I w → I (run_call X c w).
Proof.
  destruct c; simpl.
  - apply I_fetch.
  - apply preserves_get_dtype.
  - apply preserves_get_supported.
  - apply preserves_get_inference_backend.
  - apply preserves_create_model.
  - apply preserves_compute_model_replies.
  - apply preserves_switch_inference_backend.
  - apply preserves_switch_inference_backend.
Qed.

(** An invariant of the registry call, of logging and of object creation
    is an invariant of every sequence of calls of the module. *)
Lemma run_calls_preserve (cs : list ApiCall) (w : World) :
  I w → I (run_calls X cs w).
Proof.
  revert w. induction cs as [|c cs IH]; intros w Hw; simpl; [done|].
  by apply IH, run_call_preserves.
Qed.

End Preserves.

(** ** The config cache *)

Section CacheProperties.
Context (X : Externals).

(** The four ways a call of [fetch_model_config] can go. *)
Lemma fetch_cases (name : string) (w : World) :
  (fetched_model_configs_lock w = true
   ∧ fetch_model_config X name w = (Blocked, w))
  ∨ (fetched_model_configs_lock w = false
     ∧ ∃ c, fetched_model_configs w !! name = Some c
            ∧ fetch_model_config X name w = (Returned c, w))
  ∨ (fetched_model_configs_lock w = false
     ∧ fetched_model_configs w !! name = None
     ∧ ∃ e, fetch_model_config X name w =
              (Raised e,
               mkWorld (fetched_model_configs w) true (filesystem w) (exc_info w)
                       (next_oid w) (trace w ++ [EvFromPretrained name (inl e)])))
  ∨ (fetched_model_configs_lock w = false
     ∧ fetched_model_configs w !! name = None
     ∧ ∃ c, config_oid c = next_oid w
            ∧ fetch_model_config X name w =
                (Returned c,
                 mkWorld (<[name := c]> (fetched_model_configs w)) false
                         (filesystem w) (exc_info w) (S (next_oid w))
                         (trace w ++ [EvFromPretrained name (inr c)]))).
Proof.
  destruct (fetched_model_configs_lock w) eqn:Hl.
  { left. split; [done|]. by apply fetch_locked. }
  destruct (fetched_model_configs w !! name) as [c|] eqn:Hc.
  { right; left. split; [done|]. exists c. split; [done|]. by apply fetch_cached. }
  destruct (from_pretrained_result X (trace w) name) as [e|d] eqn:Hr.
  - right; right; left. split; [done|]. split; [done|]. exists e.
    by apply fetch_uncached_raises.
  - right; right; right. split; [done|]. split; [done|].
    eexists. split; [|by apply (fetch_uncached X name w d)]. done.
Qed.

(** What a returned config tells about the cache: the name is now cached
    with the very object returned, no other entry has been touched, and a
    name that was cached already has cost neither a registry call nor a
    new object. *)
Theorem fetch_model_config_returns_cached
    (name : string) (w w1 : World) (c : ModelConfig) :
  fetch_model_config X name w = (Returned c, w1) →
  fetched_model_configs w1 !! name = Some c
  ∧ (∀ n, n ≠ name → fetched_model_configs w1 !! n = fetched_model_configs w !! n)
  ∧ (∀ c0, fetched_model_configs w !! name = Some c0 →
           c0 = c
           ∧ fetched_model_configs w1 = fetched_model_configs w
           ∧ trace w1 = trace w
           ∧ next_oid w1 = next_oid w).
Proof.
  intros Hf.
  destruct (fetch_cases name w)
    as [[Hl H]|[(Hl & c' & Hc & H)|[(Hl & Hc & e & H)|(Hl & Hc & c' & Hoid & H)]]];
    rewrite H in Hf; try discriminate; injection Hf as <- <-.
  - split; [done|]. split; [done|]. intros c0 Hc0.
    split; [congruence | done].
  - split; [apply lookup_insert_eq|]. split.
    + intros n Hn. simpl. by apply lookup_insert_ne.
    + intros c0 Hc0. congruence.
Qed.

(** The lock is free after a call exactly when the call has returned. *)
Theorem fetch_lock_free_iff_returned (name : string) (w : World) :
  fetched_model_configs_lock (fetch_model_config X name w).2 = false
  ↔ ∃ c, (fetch_model_config X name w).1 = Returned c.
Proof.
  destruct (fetch_cases name w)
    as [[Hl H]|[(Hl & c' & Hc & H)|[(Hl & Hc & e & H)|(Hl & Hc & c' & Hoid & H)]]];
    rewrite H; simpl.
  - rewrite Hl. split; [done | by intros [c ?]].
  - rewrite Hl. split; [by exists c' | done].
  - split; [done | by intros [c ?]].
  - split; [by exists c' | done].
Qed.

Lemma fetch_preserves_entry (n : string) (c : ModelConfig) (name : string) :
  preserves (λ w, fetched_model_configs w !! n = Some c)
            (fetch_model_config X name).
Proof.
  intros w Hw.
  destruct (fetch_cases name w)
    as [[Hl H]|[(Hl & c' & Hc & H)|[(Hl & Hc & e & H)|(Hl & Hc & c' & Hoid & H)]]];
    rewrite H; simpl; try done.
  rewrite lookup_insert_ne; [done|]. intros ->. congruence.
Qed.

(** Nothing is ever evicted or replaced: a config, once cached, is cached
    with the same object after any calls of the module. *)
Theorem cached_config_persists
    (calls : list ApiCall) (w : World) (n : string) (c : ModelConfig) :
  fetched_model_configs w !! n = Some c →
  fetched_model_configs (run_calls X calls w) !! n = Some c.
Proof.
  apply (run_calls_preserve X (λ w, fetched_model_configs w !! n = Some c)).
  - done.
  - done.
  - intros name. apply fetch_preserves_entry.
Qed.

Lemma fetch_preserves_distinct (name : string) :
  preserves (λ w, cached_objects_known w ∧ cached_objects_distinct w)
            (fetch_model_config X name).
Proof.
  intros w [Hk Hd]. split; [by apply cached_objects_known_step|].
  destruct (fetch_cases name w)
    as [[Hl H]|[(Hl & c' & Hc & H)|[(Hl & Hc & e & H)|(Hl & Hc & c' & Hoid & H)]]];
    rewrite H; simpl; try done.
  intros n1 n2 c1 c2 Hne. simpl.
  destruct (decide (name = n1)) as [<-|Hn1].
  - rewrite lookup_insert_eq, lookup_insert_ne by done.
    intros [= <-] H2. specialize (Hk _ _ H2). lia.
  - rewrite lookup_insert_ne by done.
    destruct (decide (name = n2)) as [<-|Hn2].
    + rewrite lookup_insert_eq. intros H1 [= <-]. specialize (Hk _ _ H1). lia.
    + rewrite lookup_insert_ne by done. by apply Hd.
Qed.

(** From the start of the process on, whatever is called, configs cached
    under different names are different objects. *)
Theorem cached_configs_are_distinct_objects
    (fs : gset string) (calls : list ApiCall) (n1 n2 : string)
    (c1 c2 : ModelConfig) :
  n1 ≠ n2 →
  fetched_model_configs (run_calls X calls (initial_world fs)) !! n1 = Some c1 →
  fetched_model_configs (run_calls X calls (initial_world fs)) !! n2 = Some c2 →
  config_oid c1 ≠ config_oid c2.
Proof.
  intros Hne H1 H2.
  assert (cached_objects_known (run_calls X calls (initial_world fs))
          ∧ cached_objects_distinct (run_calls X calls (initial_world fs)))
    as [_ Hd]; [|by apply (Hd n1 n2)].
  apply (run_calls_preserve X
           (λ w, cached_objects_known w ∧ cached_objects_distinct w)).
  - intros ev w _ [Hk Hd]. by split.
  - intros w [Hk Hd]. split; [|done].
    intros n c Hn. specialize (Hk n c Hn). simpl. lia.
  - apply fetch_preserves_distinct.
  - split; intros n; intros; simpl in *; by rewrite lookup_empty in *.
Qed.

Lemma underlying_fetches_quiet (n : string) (ev : Event) :
  quiet_event ev = true → underlying_fetches n [ev] = 0.
Proof. by destruct ev. Qed.

(** From the start of the process on, whatever functions of the module
    are called and however the calls end, the registry is asked at most
    once for each name. *)
Theorem registry_asked_once_per_name
    (fs : gset string) (calls : list ApiCall) (n : string) :
  underlying_fetches n (trace (run_calls X calls (initial_world fs))) ≤ 1.
Proof.
  assert (fetch_inv (run_calls X calls (initial_world fs))) as Hinv.
  { apply (run_calls_preserve X fetch_inv).
    - intros ev w Hq Hinv n'. specialize (Hinv n'). simpl.
      rewrite underlying_fetches_app, (underlying_fetches_quiet n' ev Hq).
      by rewrite Nat.add_0_r.
    - intros w Hinv n'. apply (Hinv n').
    - intros name w. apply fetch_inv_step.
    - apply fetch_inv_initial. }
  specialize (Hinv n). destruct (fetched_model_configs _ !! n); lia.
Qed.

End CacheProperties.

(** ** Backend selection from end to end *)

Section SelectionProperties.
Context (X : Externals).

Lemma fetch_returned_cached (name : string) (w w1 : World) (c : ModelConfig) :
  fetch_model_config X name w = (Returned c, w1) →
  fetched_model_configs_lock w1 = false
  ∧ fetched_model_configs w1 !! name = Some c.
Proof.
  intros Hf.
  destruct (fetch_cases X name w)
    as [[Hl H]|[(Hl & c' & Hc & H)|[(Hl & Hc & e & H)|(Hl & Hc & c' & Hoid & H)]]];
    rewrite H in Hf; try discriminate; injection Hf as <- <-.
  - done.
  - split; [done|]. simpl. apply lookup_insert_eq.
Qed.

Lemma not_starchat (name : string) :
  ¬ (∃ pre post, name = pre +:+ "starchat" +:+ post) →
  str_contains "starchat" name = false.
Proof.
  intros Hs. destruct (str_contains "starchat" name) eqn:E; [|done].
  by apply str_contains_spec in E.
Qed.

(** The lists that [get_supported_inference_backends] can return. *)
Lemma get_supported_range (name : string) (w w0 : World) (sup : list string) :
  get_supported_inference_backends X name w = (Returned sup, w0) →
  (str_contains "starchat" name = true
   ∧ sup = ["tgi"; "hf_transformers"] ∧ w0 = w)
  ∨ (str_contains "starchat" name = false
     ∧ ∃ c, fetch_model_config X name w = (Returned c, w0)
            ∧ sup = if list_contains (model_type c) generally_supported_model_types
                    then ["vllm"; "tgi"; "hf_transformers"] else []).
Proof.
  unfold get_supported_inference_backends.
  destruct (str_contains "starchat" name) eqn:Hs.
  - intros [= <- <-]. by left.
  - unfold mbind, M_bind.
    destruct (fetch_model_config X name w) as [[c| |] w'] eqn:Hf; [|done..].
    intros Hret. right. split; [done|]. exists c.
    destruct (list_contains _ _); injection Hret as <- <-; by split.
Qed.

(** A name that contains "starchat" is served without the registry and
    without the lock, so also while the lock is held: tgi when the marker
    path exists, and otherwise the warning and hf_transformers. It never
    gets vllm, never raises and never waits. *)
Theorem starchat_backend_needs_no_lock (name : string) (w : World) :
  (∃ pre post, name = pre +:+ "starchat" +:+ post) →
  ("text-generation-inference" ∈ filesystem w →
   get_inference_backend X name w = (Returned "tgi", w))
  ∧ ("text-generation-inference" ∉ filesystem w →
     get_inference_backend X name w =
       (Returned "hf_transformers", log_event (EvPrint (tgi_warning name)) w)).
Proof.
  intros Hs. apply str_contains_spec in Hs.
  unfold get_inference_backend, mbind, M_bind.
  rewrite (get_supported_starchat X name w Hs).
  destruct (select_inference_backend_cases name ["tgi"; "hf_transformers"] w)
    as (_ & Htgi & Hhf & _).
  split; intros Hm.
  - apply Htgi; [|simpl; tauto|done]. simpl. intuition discriminate.
  - apply Hhf; [|simpl; tauto|done|simpl; tauto]. simpl. intuition discriminate.
Qed.

(** While the lock is held, as it is for ever after a failed fetch, the
    backends of a name without "starchat" cannot be had: the selection and
    [get_dtype] wait, and change nothing. *)
Theorem selection_blocks_on_held_lock (name : string) (w : World) :
  fetched_model_configs_lock w = true →
  ¬ (∃ pre post, name = pre +:+ "starchat" +:+ post) →
  get_supported_inference_backends X name w = (Blocked, w)
  ∧ get_inference_backend X name w = (Blocked, w)
  ∧ ∀ n, get_dtype X n w = (Blocked, w).
Proof.
  intros Hl Hs. apply not_starchat in Hs.
  assert (get_supported_inference_backends X name w = (Blocked, w)) as Hsup.
  { unfold get_supported_inference_backends. rewrite Hs.
    unfold mbind, M_bind. by rewrite fetch_locked. }
  split; [done|]. split.
  - unfold get_inference_backend, mbind, M_bind. by rewrite Hsup.
  - intros n. unfold get_dtype, mbind, M_bind. by rewrite fetch_locked.
Qed.

(** A backend that [get_inference_backend] returns is one of the supported
    ones, and how it was chosen can be told from it: vllm without further
    ado; tgi only without vllm and with the marker path; hf_transformers
    only without vllm, without the marker path and after the warning, so
    never silently. *)
Theorem get_inference_backend_returns_supported
    (path : string) (w w1 : World) (b : string) :
  get_inference_backend X path w = (Returned b, w1) →
  ∃ (sup : list string) (w0 : World),
    get_supported_inference_backends X path w = (Returned sup, w0)
    ∧ In b sup
    ∧ ((b = "vllm" ∧ w1 = w0)
       ∨ (b = "tgi" ∧ ¬ In "vllm" sup
          ∧ "text-generation-inference" ∈ filesystem w0 ∧ w1 = w0)
       ∨ (b = "hf_transformers" ∧ ¬ In "vllm" sup
          ∧ ("text-generation-inference" ∉ filesystem w0)
          ∧ w1 = log_event (EvPrint (tgi_warning path)) w0)).
Proof.
  unfold get_inference_backend, mbind, M_bind.
  destruct (get_supported_inference_backends X path w) as [[sup| |] w0] eqn:Hsup;
    [|done..].
  intros Hsel. exists sup, w0. split; [done|].
  destruct (select_inference_backend_cases path sup w0)
    as (Hv & Htgi & Hhf & Herr & _ & Hnone).
  apply get_supported_range in Hsup as [(_ & -> & ->)|(_ & c & _ & ->)].
  - destruct (decide ("text-generation-inference" ∈ filesystem w)) as [Hm|Hm].
    + rewrite Htgi in Hsel; [|simpl; intuition discriminate|simpl; tauto|done].
      injection Hsel as <- <-. split; [simpl; tauto|].
      right; left. repeat split; [simpl; intuition discriminate|done].
    + rewrite Hhf in Hsel;
        [|simpl; intuition discriminate|simpl; tauto|done|simpl; tauto].
      injection Hsel as <- <-. split; [simpl; tauto|].
      right; right. repeat split; [simpl; intuition discriminate|done].
  - destruct (list_contains _ _).
    + rewrite Hv in Hsel by (simpl; tauto).
      injection Hsel as <- <-. split; [simpl; tauto|]. by left.
    + rewrite Hnone in Hsel by (simpl; tauto). discriminate.
Qed.

(** For a name without "starchat" the marker path plays no part and no
    warning is printed: with the config fetched, the answer is vllm for a
    model type of the allow-list and the error for any other. *)
Theorem other_models_ignore_tgi
    (name : string) (w w1 : World) (c : ModelConfig) :
  ¬ (∃ pre post, name = pre +:+ "starchat" +:+ post) →
  fetch_model_config X name w = (Returned c, w1) →
  (In (model_type c) generally_supported_model_types →
   get_inference_backend X name w = (Returned "vllm", w1))
  ∧ (¬ In (model_type c) generally_supported_model_types →
     get_inference_backend X name w = (Raised (no_backend_error name), w1)).
Proof.
  intros Hs Hf. apply not_starchat in Hs.
  unfold get_inference_backend, mbind, M_bind.
  rewrite (get_supported_fetched X name w w1 c Hs Hf).
  split; intros Hin.
  - apply list_contains_spec in Hin. rewrite Hin.
    apply select_inference_backend_cases. simpl. tauto.
  - apply list_contains_false in Hin. rewrite Hin.
    apply select_inference_backend_cases; simpl; tauto.
Qed.

(** The functions that read a config share the cache: once the supported
    backends of a name without "starchat" have been returned, the config
    is cached, and [get_dtype], [fetch_model_config] and a second
    [get_supported_inference_backends] answer from it and change
    nothing. *)
Theorem readers_share_cache
    (name : string) (w w1 : World) (sup : list string) :
  ¬ (∃ pre post, name = pre +:+ "starchat" +:+ post) →
  get_supported_inference_backends X name w = (Returned sup, w1) →
  ∃ c : ModelConfig,
    fetched_model_configs w1 !! name = Some c
    ∧ fetch_model_config X name w1 = (Returned c, w1)
    ∧ get_dtype X name w1 = (Returned (torch_dtype c), w1)
    ∧ get_supported_inference_backends X name w1 = (Returned sup, w1).
Proof.
  intros Hs Hsup. apply not_starchat in Hs.
  apply get_supported_range in Hsup as [(Hs' & _)|(_ & c & Hf & ->)];
    [congruence|].
  apply fetch_returned_cached in Hf as [Hl Hc].
  pose proof (fetch_cached X name w1 c Hl Hc) as Hagain.
  exists c. split; [done|]. split; [done|]. split.
  - unfold get_dtype, mbind, M_bind. by rewrite Hagain.
  - by rewrite (get_supported_fetched X name w1 w1 c Hs Hagain).
Qed.

End SelectionProperties.

(** ** The factory and the Dolphin wrapper *)

Section FactoryProperties.
Context (X : Externals).

Lemma fetch_preserves_next_oid (k : nat) (name : string) :
  preserves (λ w, k ≤ next_oid w) (fetch_model_config X name).
Proof.
  intros w Hw.
  destruct (fetch_cases X name w)
    as [[Hl H]|[(Hl & c' & Hc & H)|[(Hl & Hc & e & H)|(Hl & Hc & c' & Hoid & H)]]];
    rewrite H; simpl; lia.
Qed.

(** Object identities are never given out again. *)
Lemma run_calls_next_oid (calls : list ApiCall) (w : World) :
  next_oid w ≤ next_oid (run_calls X calls w).
Proof.
  apply (run_calls_preserve X (λ w', next_oid w ≤ next_oid w')).
  - by intros ev w' _ Hw'.
  - intros w' Hw'. simpl. lia.
  - intros name. apply fetch_preserves_next_oid.
  - done.
Qed.

Lemma create_model_returned (t name : string) (args kwargs : gmap string PyVal)
    (w w1 : World) (i : Wrapper) :
  create_model X t name args kwargs w = (Returned i, w1) →
  (t, wrapper_class i) ∈ model_class_table
  ∧ args ##ₘ kwargs
  ∧ wrapper_oid i = next_oid w
  ∧ next_oid w < next_oid w1.
Proof.
  unfold create_model.
  destruct (model_classes !! t) as [K|] eqn:Ht; [|done].
  apply model_classes_lookup in Ht.
  unfold merge_kwargs. destruct (decide (args ##ₘ kwargs)) as [Hd|]; [|done].
  unfold fresh_oid. unfold_M.
  assert (preserves (λ w', S (next_oid w) ≤ next_oid w')
            (wrapper_init X K (next_oid w) name (args ∪ kwargs))) as Hinit.
  { apply preserves_wrapper_init. by intros ev w' _ Hw'. }
  specialize (Hinit (set_next_oid (S (next_oid w)) w) (Nat.le_refl _)).
  destruct (wrapper_init X K (next_oid w) name (args ∪ kwargs) _)
    as [[[]| |] w'] eqn:Hw; [|done..].
  intros [= <- <-]. simpl in *. by repeat split.
Qed.

(** [create_model] returns only for a type of the table and keywords given
    once, and what it returns is a new object of the class that the table
    has for the type. *)
Theorem create_model_returns_only_known (t name : string)
    (args kwargs : gmap string PyVal) (w w1 : World) (i : Wrapper) :
  create_model X t name args kwargs w = (Returned i, w1) →
  (t, wrapper_class i) ∈ model_class_table
  ∧ args ##ₘ kwargs
  ∧ wrapper_oid i = next_oid w.
Proof.
  intros Hc. by destruct (create_model_returned _ _ _ _ _ _ _ Hc) as (? & ? & ? & _).
Qed.

(** [create_model] keeps no cache: a later call, whatever was called in
    between and even with the same arguments, builds another object. *)
Theorem create_model_fresh_instances
    (t1 n1 t2 n2 : string) (a1 k1 a2 k2 : gmap string PyVal)
    (calls : list ApiCall) (w w1 w2 : World) (i1 i2 : Wrapper) :
  create_model X t1 n1 a1 k1 w = (Returned i1, w1) →
  create_model X t2 n2 a2 k2 (run_calls X calls w1) = (Returned i2, w2) →
  wrapper_oid i1 < wrapper_oid i2.
Proof.
  intros H1 H2.
  apply create_model_returned in H1 as (_ & _ & Hi1 & Hlt1).
  apply create_model_returned in H2 as (_ & _ & Hi2 & _).
  pose proof (run_calls_next_oid calls w1). lia.
Qed.

Lemma in_dolphin_positional (k : string) :
  k ∈ dolphin_positional ↔ k = "self" ∨ k = "model_path".
Proof.
  unfold dolphin_positional. rewrite !elem_of_cons, elem_of_nil. tauto.
Qed.

Lemma in_dolphin_fixed (k : string) :
  k ∈ dolphin_fixed_keywords
  ↔ k = "user" ∨ k = "assistant" ∨ k = "system" ∨ k = "default_system" ∨ k = "end".
Proof.
  unfold dolphin_fixed_keywords. rewrite !elem_of_cons, elem_of_nil. tauto.
Qed.

Lemma dolphin_fixed_dom (dsm : PyVal) (k : string) :
  is_Some
    ((<["user" := PyStr "USER: "]>
      (<["assistant" := PyStr "ASSISTANT: "]>
       (<["system" := PyStr "SYSTEM: "]>
        (<["default_system" := dsm]>
         (<["end" := PyStr newline]> (∅ : gmap string PyVal)))))) !! k)
  ↔ k ∈ dolphin_fixed_keywords.
Proof.
  rewrite <- elem_of_dom, !dom_insert_L, dom_empty_L, in_dolphin_fixed.
  rewrite !elem_of_union, !elem_of_singleton, elem_of_empty. tauto.
Qed.

(** [Dolphin.__init__] with keywords that are none of the names it binds
    or fixes: the base constructor gets the path, the four fixed markers,
    the default system message (the given one, or the built-in text when
    none or [None] is given) and every other keyword as it came;
    [default_system_message] itself is not passed on. *)
Theorem Dolphin_init_forwards (self : nat) (path : string)
    (kw : gmap string PyVal) (w : World) :
  (∀ k, k ∈ dolphin_positional ++ dolphin_fixed_keywords → kw !! k = None) →
  ∃ kw' : gmap string PyVal,
    Dolphin_init X self path kw w = Huggingface_init X self path kw' w
    ∧ kw' !! "user" = Some (PyStr "USER: ")
    ∧ kw' !! "assistant" = Some (PyStr "ASSISTANT: ")
    ∧ kw' !! "system" = Some (PyStr "SYSTEM: ")
    ∧ kw' !! "end" = Some (PyStr newline)
    ∧ kw' !! "default_system" =
        Some (match kw !! "default_system_message" with
              | None | Some PyNone => PyStr dolphin_default_system_message
              | Some v => v
              end)
    ∧ kw' !! "default_system_message" = None
    ∧ ∀ k, k ∉ "default_system_message" :: dolphin_fixed_keywords →
           kw' !! k = kw !! k.
Proof.
  intros Hfree. unfold Dolphin_init.
  rewrite bool_decide_eq_false_2.
  2:{ intros [[x Hx]|[x Hx]]; rewrite Hfree in Hx; try done;
        apply elem_of_app; left; apply in_dolphin_positional; tauto. }
  set (dsm := if decide (default PyNone (kw !! "default_system_message") = PyNone)
              then PyStr dolphin_default_system_message
              else default PyNone (kw !! "default_system_message")).
  set (fixed := <["user" := PyStr "USER: "]> _).
  assert (fixed ##ₘ delete "default_system_message" kw) as Hdisj.
  { apply map_disjoint_spec. intros k x y Hx Hy.
    assert (k ∈ dolphin_fixed_keywords) as Hk
      by (apply (dolphin_fixed_dom dsm); by exists x).
    apply lookup_delete_Some in Hy as [_ Hy].
    rewrite Hfree in Hy; [done|]. apply elem_of_app. by right. }
  rewrite (merge_kwargs_disjoint _ _ Hdisj).
  exists (fixed ∪ delete "default_system_message" kw).
  split; [done|].
  assert (dsm = match kw !! "default_system_message" with
                | None | Some PyNone => PyStr dolphin_default_system_message
                | Some v => v
                end) as Hdsm.
  { unfold dsm. by destruct (kw !! "default_system_message") as [[]|]. }
  rewrite <- Hdsm.
  repeat split.
  - by apply lookup_union_Some_l.
  - by apply lookup_union_Some_l.
  - by apply lookup_union_Some_l.
  - by apply lookup_union_Some_l.
  - by apply lookup_union_Some_l.
  - apply lookup_union_None. split; [done|]. apply lookup_delete_eq.
  - intros k Hk. apply not_elem_of_cons in Hk as [Hk1 Hk2].
    rewrite lookup_union_r.
    + by apply lookup_delete_ne.
    + destruct (fixed !! k) as [x|] eqn:Hx; [|done].
      destruct Hk2. apply (dolphin_fixed_dom dsm). by exists x.
Qed.

(** A keyword that [Dolphin.__init__] binds or fixes itself cannot be given
    from outside: the call fails with a [TypeError], and the base
    constructor is not reached. *)
Theorem Dolphin_init_rejects_own_keywords (self : nat) (path : string)
    (kw : gmap string PyVal) (k : string) (w : World) :
  k ∈ dolphin_positional ++ dolphin_fixed_keywords →
  is_Some (kw !! k) →
  ∃ e, Dolphin_init X self path kw w = (Raised e, w)
       ∧ exc_class e = TypeError.
Proof.
  intros Hk Hsome. unfold Dolphin_init.
  destruct (bool_decide (is_Some (kw !! "self") ∨ is_Some (kw !! "model_path")))
    eqn:Hpos.
  { by eexists. }
  apply bool_decide_eq_false in Hpos.
  assert (k ∈ dolphin_fixed_keywords) as Hfixed.
  { apply elem_of_app in Hk as [Hk|Hk]; [|done]. exfalso. apply Hpos.
    apply in_dolphin_positional in Hk as [->| ->]; tauto. }
  rewrite (merge_kwargs_clash _ _ k).
  - by eexists.
  - by apply dolphin_fixed_dom.
  - destruct Hsome as [x Hx]. exists x. apply lookup_delete_Some.
    split; [|done]. intros <-.
    apply in_dolphin_fixed in Hfixed. by destruct_or!.
Qed.

End FactoryProperties.

(** ** Keywords given twice *)

Section KeywordProperties.
Context (X : Externals).

(** A keyword that is both in [model_args] and in [kwargs]: [create_model]
    fails with a [TypeError]; no object is created and no constructor
    runs. *)
Theorem create_model_rejects_duplicate_keyword (t name : string)
    (K : ModelClass) (args kwargs : gmap string PyVal) (k : string) (w : World) :
  (t, K) ∈ model_class_table →
  is_Some (args !! k) → is_Some (kwargs !! k) →
  ∃ e, create_model X t name args kwargs w = (Raised e, w)
       ∧ exc_class e = TypeError.
Proof.
  intros Ht Ha Hk. rewrite (create_model_clash X t name K args kwargs k w Ht Ha Hk).
  by eexists.
Qed.

(** A dict conversation with a "stop_event" entry of its own: the reply
    call fails with a [TypeError] before [model.reply] is entered. *)
Theorem compute_reply_rejects_stop_event_entry (model : Model)
    (bundle : gmap string PyVal) (stop_event : PyVal) (w : World) :
  is_Some (bundle !! "stop_event") →
  ∃ e, compute_reply X model (ConvDict bundle) stop_event w = (Raised e, w)
       ∧ exc_class e = TypeError.
Proof.
  intros Hb. rewrite (compute_reply_dict_clash X model bundle stop_event w Hb).
  by eexists.
Qed.

End KeywordProperties.

(** ** A failing unload *)

Section SwitchProperties.
Context (X : Externals).

(** The loop over a first part of the table whose unload functions
    return. *)
Lemma switch_loop_through (target : PyVal)
    (before rest : list (string * BackendModule)) (w : World) :
  (∀ tr m', m' ∈ before.*2 → unload_result X tr m' = None) →
  for_each (before ++ rest)
    (λ '(inference_backend_name, unload_backend_fn),
       if str_eq_val inference_backend_name target then mret tt
       else backend_unload_model X unload_backend_fn) w
  = for_each rest
      (λ '(inference_backend_name, unload_backend_fn),
         if str_eq_val inference_backend_name target then mret tt
         else backend_unload_model X unload_backend_fn)
      (mkWorld (fetched_model_configs w) (fetched_model_configs_lock w)
               (filesystem w) (exc_info w) (next_oid w)
               (trace w ++
                  ((λ nm, EvUnload nm.2 None) <$>
                   List.filter (λ nm, negb (str_eq_val nm.1 target)) before))).
Proof.
  revert w. induction before as [|[name m] before IH]; intros w Hok.
  - simpl. rewrite app_nil_r. by destruct w.
  - simpl. destruct (str_eq_val name target) eqn:Heq; simpl.
    + unfold mbind, M_bind, mret, M_ret at 1. apply IH.
      intros tr m' Hm'. apply Hok. simpl. by right.
    + unfold mbind, M_bind, backend_unload_model at 1.
      rewrite Hok by (simpl; by left).
      rewrite IH by (intros tr m' Hm'; apply Hok; simpl; by right).
      simpl. by rewrite <- app_assoc.
Qed.

(** No unload function is guarded: when the unload of a backend raises,
    [switch_inference_backend] raises the same exception at once, and the
    backends that come later in the table are not unloaded. *)
Theorem switch_inference_backend_stops_at_failure (target : PyVal)
    (before after : list (string * BackendModule))
    (name : string) (m : BackendModule) (e : PyExc) (w : World) :
  unload_backend_fns = before ++ (name, m) :: after →
  target ≠ PyStr name →
  (∀ tr m', m' ∈ before.*2 → unload_result X tr m' = None) →
  (∀ tr, unload_result X tr m = Some e) →
  ∃ new : list Event,
    switch_inference_backend X target w =
      (Raised e,
       mkWorld (fetched_model_configs w) (fetched_model_configs_lock w)
               (filesystem w) (exc_info w) (next_oid w) (trace w ++ new))
    ∧ m ∈ unloaded_modules new
    ∧ ∀ n' m', (n', m') ∈ after → m' ∉ unloaded_modules new.
Proof.
  intros Htable Hne Hok Hfail.
  assert (NoDup (unload_backend_fns.*2)) as Hnd.
  { apply (bool_decide_unpack _). by vm_compute. }
  unfold switch_inference_backend. rewrite Htable in *.
  rewrite (switch_loop_through target before _ w Hok).
  simpl. rewrite (proj2 (str_eq_val_false name target) Hne).
  unfold mbind, M_bind, backend_unload_model at 1. rewrite Hfail. simpl.
  eexists (_ ++ [EvUnload m (Some e)]).
  split; [unfold log_event; simpl; by rewrite <- app_assoc|].
  unfold unloaded_modules. rewrite omap_app. simpl.
  fold (unloaded_modules
          ((λ nm, EvUnload nm.2 None) <$>
           List.filter (λ nm, negb (str_eq_val nm.1 target)) before)).
  rewrite unloaded_modules_unloads.
  split; [apply elem_of_app; right; by left|].
  intros n' m' Hin Hm'.
  rewrite fmap_app, fmap_cons in Hnd. simpl in Hnd.
  apply NoDup_app in Hnd as (_ & Hsep & Hnd).
  apply NoDup_cons in Hnd as [Hm _].
  assert (m' ∈ after.*2) as Hafter.
  { apply list_elem_of_fmap. by exists (n', m'). }
  apply elem_of_app in Hm' as [Hm'|Hm'].
  - apply (Hsep m'); [|by right].
    apply list_elem_of_fmap in Hm' as ([n0 m0] & -> & Hin0).
    apply list_elem_of_In, List.filter_In in Hin0 as [Hin0 _].
    apply list_elem_of_fmap. exists (n0, m0). split; [done|].
    by apply list_elem_of_In.
  - apply list_elem_of_singleton in Hm' as ->. by apply Hm.
Qed.

End SwitchProperties.

(** ** The further properties at work on the sample environment *)

Lemma fetch_model_config_returns_cached_witness :
  fetched_model_configs (fetch_model_config sample_externals "llama-7b" world0).2
    !! "llama-7b" = Some (mkModelConfig 0 "llama" "float16")
  ∧ fetched_model_configs (fetch_model_config sample_externals "llama-7b" world0).2
      !! "bert-base" = fetched_model_configs world0 !! "bert-base".
Proof.
  destruct (fetch_model_config_returns_cached sample_externals "llama-7b" world0
              (fetch_model_config sample_externals "llama-7b" world0).2
              (mkModelConfig 0 "llama" "float16"))
    as (Hc & Hother & _).
  - vm_compute. reflexivity.
  - split; [exact Hc|]. by apply Hother.
Defined.

Lemma cached_config_persists_witness :
  fetched_model_configs
    (run_calls sample_externals
       [CallUnloadModel; CallFetchModelConfig "missing"; CallGetDtype "bert-base"]
       (fetch_model_config sample_externals "llama-7b" world0).2)
    !! "llama-7b" = Some (mkModelConfig 0 "llama" "float16").
Proof.
  apply (cached_config_persists sample_externals).
  vm_compute. reflexivity.
Defined.

Lemma cached_configs_are_distinct_objects_witness :
  config_oid (mkModelConfig 0 "llama" "float16")
  ≠ config_oid (mkModelConfig 2 "bert" "float16").
Proof.
  apply (cached_configs_are_distinct_objects sample_externals ∅
           [CallFetchModelConfig "llama-7b";
            CallCreateModel "chatml" "some/model" ∅ ∅;
            CallGetDtype "bert-base"]
           "llama-7b" "bert-base").
  - discriminate.
  - vm_compute. reflexivity.
  - vm_compute. reflexivity.
Defined.

Lemma starchat_backend_needs_no_lock_witness :
  fetched_model_configs_lock world_stuck = true
  ∧ get_inference_backend sample_externals "HuggingFaceH4/starchat-beta" world_stuck
    = (Returned "hf_transformers",
       log_event (EvPrint (tgi_warning "HuggingFaceH4/starchat-beta")) world_stuck).
Proof.
  split; [reflexivity|].
  apply (starchat_backend_needs_no_lock sample_externals
           "HuggingFaceH4/starchat-beta" world_stuck).
  - by exists "HuggingFaceH4/", "-beta".
  - apply (bool_decide_unpack _). by vm_compute.
Defined.

Lemma selection_blocks_on_held_lock_witness :
  get_supported_inference_backends sample_externals "llama-7b" world_stuck
    = (Blocked, world_stuck)
  ∧ get_inference_backend sample_externals "llama-7b" world_stuck
    = (Blocked, world_stuck)
  ∧ ∀ n, get_dtype sample_externals n world_stuck = (Blocked, world_stuck).
Proof.
  apply (selection_blocks_on_held_lock sample_externals "llama-7b" world_stuck).
  - reflexivity.
  - intros Hs. apply str_contains_spec in Hs. vm_compute in Hs. discriminate.
Defined.

Lemma get_inference_backend_returns_supported_witness :
  ∃ (sup : list string) (w0 : World),
    get_supported_inference_backends sample_externals "llama-7b" world0
      = (Returned sup, w0)
    ∧ In "vllm" sup.
Proof.
  destruct (get_inference_backend_returns_supported sample_externals "llama-7b"
              world0 (get_inference_backend sample_externals "llama-7b" world0).2
              "vllm") as (sup & w0 & Hsup & Hin & _).
  - vm_compute. reflexivity.
  - by exists sup, w0.
Defined.

Lemma other_models_ignore_tgi_witness :
  (get_inference_backend sample_externals "llama-7b" world_tgi).1
    = Returned "vllm"
  ∧ (get_inference_backend sample_externals "bert-base" world_tgi).1
    = Raised (no_backend_error "bert-base").
Proof.
  split.
  - destruct (other_models_ignore_tgi sample_externals "llama-7b" world_tgi
                (fetch_model_config sample_externals "llama-7b" world_tgi).2
                (mkModelConfig 0 "llama" "float16")) as [H _].
    + intros Hs. apply str_contains_spec in Hs. vm_compute in Hs. discriminate.
    + vm_compute. reflexivity.
    + rewrite H; [reflexivity|]. simpl. tauto.
  - destruct (other_models_ignore_tgi sample_externals "bert-base" world_tgi
                (fetch_model_config sample_externals "bert-base" world_tgi).2
                (mkModelConfig 0 "bert" "float16")) as [_ H].
    + intros Hs. apply str_contains_spec in Hs. vm_compute in Hs. discriminate.
    + vm_compute. reflexivity.
    + rewrite H; [reflexivity|]. simpl. intuition discriminate.
Defined.

Lemma readers_share_cache_witness :
  ∃ c : ModelConfig,
    get_dtype sample_externals "llama-7b"
      (get_supported_inference_backends sample_externals "llama-7b" world0).2
    = (Returned (torch_dtype c),
       (get_supported_inference_backends sample_externals "llama-7b" world0).2).
Proof.
  destruct (readers_share_cache sample_externals "llama-7b" world0
              (get_supported_inference_backends sample_externals "llama-7b" world0).2
              ["vllm"; "tgi"; "hf_transformers"]) as (c & _ & _ & Hd & _).
  - intros Hs. apply str_contains_spec in Hs. vm_compute in Hs. discriminate.
  - vm_compute. reflexivity.
  - by exists c.
Defined.

Lemma create_model_returns_only_known_witness :
  ("chatml", ChatML) ∈ model_class_table
  ∧ wrapper_oid (mkWrapper ChatML 0) = next_oid world0.
Proof.
  destruct (create_model_returns_only_known sample_externals "chatml" "some/model"
              {["tokenizer" := PyStr "fast"]} {["max_new_tokens" := PyInt 400]}
              world0
              (create_model sample_externals "chatml" "some/model"
                 {["tokenizer" := PyStr "fast"]} {["max_new_tokens" := PyInt 400]}
                 world0).2
              (mkWrapper ChatML 0)) as (Hin & _ & Hoid).
  - vm_compute. reflexivity.
  - by split.
Defined.

Lemma create_model_fresh_instances_witness :
  wrapper_oid (mkWrapper ChatML 0) < wrapper_oid (mkWrapper ChatML 2).
Proof.
  apply (create_model_fresh_instances sample_externals
           "chatml" "some/model" "chatml" "some/model" ∅ ∅ ∅ ∅
           [CallFetchModelConfig "llama-7b"] world0
           (create_model sample_externals "chatml" "some/model" ∅ ∅ world0).2
           (create_model sample_externals "chatml" "some/model" ∅ ∅
              (run_calls sample_externals [CallFetchModelConfig "llama-7b"]
                 (create_model sample_externals "chatml" "some/model" ∅ ∅ world0).2)).2).
  - vm_compute. reflexivity.
  - vm_compute. reflexivity.
Defined.

Lemma Dolphin_init_forwards_witness :
  ∃ kw' : gmap string PyVal,
    Dolphin_init sample_externals 0 "ehartford/dolphin"
      (<["default_system_message" := PyStr "Be brief."]>
         {["max_new_tokens" := PyInt 400]}) world0
    = Huggingface_init sample_externals 0 "ehartford/dolphin" kw' world0
    ∧ kw' !! "default_system" = Some (PyStr "Be brief.")
    ∧ kw' !! "max_new_tokens" = Some (PyInt 400)
    ∧ kw' !! "default_system_message" = None.
Proof.
  destruct (Dolphin_init_forwards sample_externals 0 "ehartford/dolphin"
              (<["default_system_message" := PyStr "Be brief."]>
                 {["max_new_tokens" := PyInt 400]}) world0)
    as (kw' & Hinit & _ & _ & _ & _ & Hdsm & Hgone & Hrest).
  - intros k Hk. apply elem_of_app in Hk as [Hk|Hk].
    + apply in_dolphin_positional in Hk. by destruct_or!; subst.
    + apply in_dolphin_fixed in Hk. by destruct_or!; subst.
  - exists kw'. split; [exact Hinit|]. split; [exact Hdsm|]. split; [|exact Hgone].
    rewrite Hrest; [reflexivity|].
    apply (bool_decide_unpack _). by vm_compute.
Defined.

Lemma Dolphin_init_rejects_own_keywords_witness :
  ∃ e, Dolphin_init sample_externals 0 "ehartford/dolphin"
         {["user" := PyStr "HUMAN: "]} world0 = (Raised e, world0)
       ∧ exc_class e = TypeError.
Proof.
  apply (Dolphin_init_rejects_own_keywords sample_externals 0 "ehartford/dolphin"
           {["user" := PyStr "HUMAN: "]} "user" world0).
  - apply (bool_decide_unpack _). by vm_compute.
  - by eexists.
Defined.

Lemma create_model_rejects_duplicate_keyword_witness :
  ∃ e, create_model sample_externals "chatml" "some/model"
         {["max_new_tokens" := PyStr "400"]} {["max_new_tokens" := PyInt 512]}
         world0 = (Raised e, world0)
       ∧ exc_class e = TypeError.
Proof.
  apply (create_model_rejects_duplicate_keyword sample_externals "chatml"
           "some/model" ChatML {["max_new_tokens" := PyStr "400"]}
           {["max_new_tokens" := PyInt 512]} "max_new_tokens" world0).
  - apply (bool_decide_unpack _). by vm_compute.
  - by eexists.
  - by eexists.
Defined.

Lemma compute_reply_rejects_stop_event_entry_witness :
  ∃ e, compute_reply sample_externals sample_model
         (ConvDict {["stop_event" := PyNone]}) (PyObj 0) world0
       = (Raised e, world0)
       ∧ exc_class e = TypeError.
Proof.
  apply (compute_reply_rejects_stop_event_entry sample_externals sample_model
           {["stop_event" := PyNone]} (PyObj 0) world0).
  by eexists.
Defined.

Lemma switch_inference_backend_stops_at_failure_witness :
  ∃ new : list Event,
    (switch_inference_backend vllm_unload_fails (PyStr "fastchat") world0).1
      = Raised (mkExc RuntimeError ["CUDA error: invalid device ordinal"])
    ∧ trace (switch_inference_backend vllm_unload_fails (PyStr "fastchat") world0).2
      = new
    ∧ VllmBackendModule ∈ unloaded_modules new
    ∧ (TgiModule ∉ unloaded_modules new).
Proof.
  destruct (switch_inference_backend_stops_at_failure vllm_unload_fails
              (PyStr "fastchat")
              [("hf_transformers", HfTransformersModule)]
              [("tgi", TgiModule); ("fastchat", FastchatModule)]
              "vllm" VllmBackendModule
              (mkExc RuntimeError ["CUDA error: invalid device ordinal"]) world0)
    as (new & Hsw & Hin & Hnot).
  - reflexivity.
  - discriminate.
  - intros tr m' Hm'. apply list_elem_of_singleton in Hm' as ->. reflexivity.
  - reflexivity.
  - exists new. rewrite Hsw. split; [reflexivity|]. split; [reflexivity|].
    split; [exact Hin|]. apply (Hnot "tgi"). by left.
Defined.

(** ** Stale and failed lookups *)

Section LookupProperties.
Context (X : Externals).

(** A cached config is never refreshed: whatever has been called since it
    was cached, and whatever the registry would answer now, [get_dtype]
    gives the dtype of the cached object and asks nothing, as long as the
    lock is free. *)
Theorem get_dtype_never_refreshed (name : string) (c : ModelConfig)
    (calls : list ApiCall) (w : World) :
  fetched_model_configs w !! name = Some c →
  fetched_model_configs_lock (run_calls X calls w) = false →
  get_dtype X name (run_calls X calls w)
    = (Returned (torch_dtype c), run_calls X calls w).
Proof.
  intros Hc Hl.
  assert (fetched_model_configs (run_calls X calls w) !! name = Some c) as Hc'.
  { apply (run_calls_preserve X (λ w, fetched_model_configs w !! name = Some c));
      [done | done | | done].
    intros n. apply fetch_preserves_entry. }
  unfold get_dtype, mbind, M_bind.
  by rewrite (fetch_cached X name _ c Hl Hc').
Qed.

(** A registry failure ends backend selection: for an uncached name
    without "starchat" the registry's exception comes out of
    [get_supported_inference_backends], [get_inference_backend] and
    [get_dtype] unchanged, nothing is printed or cached, and the lock is
    left held. *)
Theorem selection_propagates_registry_failure
    (name : string) (w : World) (e : PyExc) :
  fetched_model_configs_lock w = false →
  fetched_model_configs w !! name = None →
  from_pretrained_result X (trace w) name = inl e →
  ¬ (∃ pre post, name = pre +:+ "starchat" +:+ post) →
  let w1 := mkWorld (fetched_model_configs w) true (filesystem w) (exc_info w)
                    (next_oid w) (trace w ++ [EvFromPretrained name (inl e)]) in
  get_supported_inference_backends X name w = (Raised e, w1)
  ∧ get_inference_backend X name w = (Raised e, w1)
  ∧ get_dtype X name w = (Raised e, w1).
Proof.
  intros Hl Hc He Hs w1. apply not_starchat in Hs.
  pose proof (fetch_uncached_raises X name w e Hl Hc He) as Hf.
  assert (get_supported_inference_backends X name w = (Raised e, w1)) as Hsup.
  { unfold get_supported_inference_backends. rewrite Hs.
    unfold mbind, M_bind. by rewrite Hf. }
  split; [done|]. split.
  - unfold get_inference_backend, mbind, M_bind. by rewrite Hsup.
  - unfold get_dtype, mbind, M_bind. by rewrite Hf.
Qed.

End LookupProperties.

Lemma get_dtype_never_refreshed_witness :
  get_dtype sample_externals "llama-7b"
    (run_calls sample_externals
       [CallSwitchInferenceBackend (PyStr "vllm"); CallGetDtype "bert-base"]
       (fetch_model_config sample_externals "llama-7b" world0).2)
  = (Returned "float16",
     run_calls sample_externals
       [CallSwitchInferenceBackend (PyStr "vllm"); CallGetDtype "bert-base"]
       (fetch_model_config sample_externals "llama-7b" world0).2).
Proof.
  apply (get_dtype_never_refreshed sample_externals "llama-7b"
           (mkModelConfig 0 "llama" "float16")).
  - vm_compute. reflexivity.
  - vm_compute. reflexivity.
Defined.

Lemma selection_propagates_registry_failure_witness :
  (get_inference_backend sample_externals "missing" world0).1
    = Raised (mkExc (OtherError "OSError") ["missing is not a valid model identifier"])
  ∧ fetched_model_configs_lock
      (get_inference_backend sample_externals "missing" world0).2 = true.
Proof.
  destruct (selection_propagates_registry_failure sample_externals "missing" world0
              (mkExc (OtherError "OSError")
                     ["missing is not a valid model identifier"]))
    as (_ & H & _).
  - reflexivity.
  - reflexivity.
  - vm_compute. reflexivity.
  - intros Hs. apply str_contains_spec in Hs. vm_compute in Hs. discriminate.
  - rewrite H. by split.
Defined.
